(** * Stock assistant core: symbol resolver, TTL cache, market-data client, memory

  A shallow embedding of [utils/api.py] and [utils/memory.py].

  Text is modelled as [string]: the UTF-8 bytes of a Python [str].
  [str.lower] and [str.strip] depend on the Unicode tables of the
  interpreter; they are taken from it as primitives ([Py.str_lower],
  [Py.str_strip]), together with what they do on ASCII text, which is
  written out in [PyStr]. *)

From Stdlib Require Import ZArith Ascii String List Bool Lia.
From Stdlib Require Import Floats.PrimFloat Floats.SpecFloat Floats.FloatOps.
From Stdlib Require Import DecimalString.
From stdpp Require Import base tactics option list strings gmap.

Local Open Scope Z_scope.
#[local] Set Warnings "-register-all".

(* ===================================================================== *)
(** * Part I: definitions                                                 *)
(* ===================================================================== *)

(** ** Python [str] methods used by the program *)
Module PyStr.

Definition between (lo hi : N) (c : ascii) : bool :=
  let n := N_of_ascii c in (N.leb lo n && N.leb n hi)%bool.

Definition is_upper (c : ascii) : bool := between 65 90 c.
Definition is_lower (c : ascii) : bool := between 97 122 c.

Definition lower_char (c : ascii) : ascii :=
  if is_upper c then ascii_of_N (N_of_ascii c + 32) else c.

Definition upper_char (c : ascii) : ascii :=
  if is_lower c then ascii_of_N (N_of_ascii c - 32) else c.

(** What [s.lower()] returns for a text of ASCII characters: the letters
    A to Z are replaced, nothing else. *)
Fixpoint lower (s : string) : string :=
  match s with
  | EmptyString => EmptyString
  | String c s' => String (lower_char c) (lower s')
  end.

(** [c.isspace()] for an ASCII character: TAB, LF, VT, FF, CR, the four
    separators 0x1c..0x1f and the blank. *)
Definition is_space (c : ascii) : bool :=
  (between 9 13 c || between 28 32 c)%bool.

Fixpoint lstrip_by (p : ascii -> bool) (s : string) : string :=
  match s with
  | EmptyString => EmptyString
  | String c s' => if p c then lstrip_by p s' else s
  end.

Fixpoint rstrip_by (p : ascii -> bool) (s : string) : string :=
  match s with
  | EmptyString => EmptyString
  | String c s' =>
      match rstrip_by p s' with
      | EmptyString => if p c then EmptyString else String c EmptyString
      | r => String c r
      end
  end.

(** What [s.strip()] returns for a text of ASCII characters. *)
Definition strip (s : string) : string :=
  rstrip_by is_space (lstrip_by is_space s).

Fixpoint mem_char (c : ascii) (chars : string) : bool :=
  match chars with
  | EmptyString => false
  | String d chars' => (Ascii.eqb c d || mem_char c chars')%bool
  end.

(** [s.rstrip(chars)]: drops every trailing character that occurs in
    [chars]. *)
Definition rstrip (chars s : string) : string :=
  rstrip_by (fun c => mem_char c chars) s.

(** [s.startswith(p)] *)
Definition startswith (p s : string) : bool := String.prefix p s.

(** [needle in hay] on two strings: substring containment. *)
Fixpoint contains (needle hay : string) : bool :=
  (String.prefix needle hay ||
   match hay with
   | EmptyString => false
   | String _ hay' => contains needle hay'
   end)%bool.

(** [not s] *)
Definition is_empty (s : string) : bool :=
  match s with EmptyString => true | _ => false end.

(** Every character of the text is an ASCII character (a byte below
    128). *)
Fixpoint is_ascii (s : string) : bool :=
  match s with
  | EmptyString => true
  | String c s' => (N.ltb (N_of_ascii c) 128 && is_ascii s')%bool
  end.

End PyStr.

(** ** Python objects, exceptions and the interpreter primitives *)
Module Py.
Import PyStr.

(** The objects that reach the program: call arguments and decoded JSON.
    A dict is the list of its items in insertion order, with distinct
    keys. *)
Inductive value : Type :=
| VNone
| VBool (b : bool)
| VInt (n : Z)
| VFloat (x : float)
| VStr (s : string)
| VList (items : list value)
| VDict (items : list (string * value)).

(** Exception classes the program can meet.  [Timeout] is a subclass of
    [RequestException]; the others are unrelated built-ins. *)
Inductive exn_class : Type :=
| Timeout | RequestException
| KeyError | ValueError | TypeError | AttributeError | IndexError
| OverflowError | RecursionError.

Record pyexn : Type := Exn { exn_cls : exn_class; exn_text : string }.

(** Outcome of evaluating a Python expression or call. *)
Inductive res (A : Type) : Type :=
| Ret (a : A)
| Raise (e : pyexn).
Arguments Ret {A} a.
Arguments Raise {A} e.

(** The ways an interpreter primitive used by the program fails. *)
Inductive fault : Type :=
| NotContainer (c : value)                 (* [k in c], c not iterable *)
| BadSubscript (c : value) (k : string)    (* [c[k]], c not a mapping *)
| NoAttribute (c : value) (attr : string)  (* [c.attr] *)
| MissingKey (k : string)                  (* [d[k]], k absent *)
| EmptyIndex                               (* [[][0]] *)
| BadFloatText (s : string)                (* [float(s)], s not a number *)
| BadFloatArg (v : value)                  (* [float(v)], v of a wrong type *)
| IntTooLarge (n : Z).                     (* [float(n)], n out of range *)

Definition fault_class (f : fault) : exn_class :=
  match f with
  | NotContainer _ | BadSubscript _ _ | BadFloatArg _ => TypeError
  | NoAttribute _ _ => AttributeError
  | MissingKey _ => KeyError
  | EmptyIndex => IndexError
  | BadFloatText _ => ValueError
  | IntTooLarge _ => OverflowError
  end.

(** What the program takes from the interpreter without defining it:
    conversion of text and integers to binary64, fixed-point formatting,
    [str()] of objects that are not text, the wording of built-in
    exceptions, and the Unicode-aware [s.lower()] and [s.strip()], of
    which only the behaviour on ASCII text is fixed here. *)
Record runtime : Type := Runtime {
  float_of_text : string -> option float;
  float_of_int : Z -> option float;
  format_2f : float -> string;
  str_of_object : value -> string;
  fault_text : fault -> string;
  str_lower : string -> string;
  str_strip : string -> string;
  lower_ascii : forall s, is_ascii s = true -> str_lower s = lower s;
  strip_ascii : forall s, is_ascii s = true -> str_strip s = strip s
}.

Definition throw {A : Type} (rt : runtime) (f : fault) : res A :=
  Raise (Exn (fault_class f) (fault_text rt f)).

(** [bool(v)] *)
Definition truthy (v : value) : bool :=
  match v with
  | VNone => false
  | VBool b => b
  | VInt n => negb (Z.eqb n 0)
  | VFloat x => negb (PrimFloat.eqb x 0%float)
  | VStr s => negb (is_empty s)
  | VList items => match items with [] => false | _ => true end
  | VDict items => match items with [] => false | _ => true end
  end.

(** [isinstance(v, str)] *)
Definition is_str (v : value) : bool :=
  match v with VStr _ => true | _ => false end.

(** The text of an object already known to be a [str]. *)
Definition text_of (v : value) : string :=
  match v with VStr s => s | _ => EmptyString end.

(** [str(v)], as an f-string placeholder renders it. *)
Definition py_str (rt : runtime) (v : value) : string :=
  match v with VStr s => s | _ => str_of_object rt v end.

(** Lookup in the items of a dict. *)
Fixpoint assoc (k : string) (items : list (string * value)) : option value :=
  match items with
  | [] => None
  | (k', v) :: rest => if String.eqb k k' then Some v else assoc k rest
  end.

(** [k == v] for a [str] k. *)
Definition eq_text (k : string) (v : value) : bool :=
  match v with VStr s => String.eqb k s | _ => false end.

(** [k in c] *)
Definition py_in (rt : runtime) (k : string) (c : value) : res bool :=
  match c with
  | VDict items => Ret (match assoc k items with Some _ => true | None => false end)
  | VList items => Ret (existsb (eq_text k) items)
  | VStr s => Ret (contains k s)
  | _ => throw rt (NotContainer c)
  end.

(** [c[k]] for a [str] k. *)
Definition py_getitem (rt : runtime) (c : value) (k : string) : res value :=
  match c with
  | VDict items =>
      match assoc k items with
      | Some v => Ret v
      | None => throw rt (MissingKey k)
      end
  | _ => throw rt (BadSubscript c k)
  end.

(** [c.get(k, default)] *)
Definition py_get (rt : runtime) (c : value) (k : string) (default : value)
  : res value :=
  match c with
  | VDict items => Ret (from_option id default (assoc k items))
  | _ => throw rt (NoAttribute c "get")
  end.

(** [list(c.keys())[0]] *)
Definition py_first_key (rt : runtime) (c : value) : res string :=
  match c with
  | VDict [] => throw rt EmptyIndex
  | VDict ((k, _) :: _) => Ret k
  | _ => throw rt (NoAttribute c "keys")
  end.

(** [v.rstrip(chars)] *)
Definition py_rstrip (rt : runtime) (v : value) (chars : string) : res string :=
  match v with
  | VStr s => Ret (rstrip chars s)
  | _ => throw rt (NoAttribute v "rstrip")
  end.

(** [float(v)] *)
Definition py_float (rt : runtime) (v : value) : res float :=
  match v with
  | VStr s =>
      match float_of_text rt s with
      | Some x => Ret x
      | None => throw rt (BadFloatText s)
      end
  | VInt n =>
      match float_of_int rt n with
      | Some x => Ret x
      | None => throw rt (IntTooLarge n)
      end
  | VBool b =>
      match float_of_int rt (if b then 1 else 0) with
      | Some x => Ret x
      | None => throw rt (IntTooLarge (if b then 1 else 0))
      end
  | VFloat x => Ret x
  | _ => throw rt (BadFloatArg v)
  end.

End Py.

(** ** [utils/api.py] *)
Module Api.
Import PyStr Py.

(** [COMPANY_SYMBOLS], in the insertion order of the dict literal. *)
Definition COMPANY_SYMBOLS : list (string * string) :=
  [ ("microsoft", "MSFT"); ("apple", "AAPL"); ("google", "GOOGL");
    ("alphabet", "GOOGL"); ("amazon", "AMZN"); ("meta", "META");
    ("facebook", "META"); ("tesla", "TSLA"); ("nvidia", "NVDA");
    ("intel", "INTC"); ("amd", "AMD"); ("ibm", "IBM");
    ("jpmorgan", "JPM"); ("goldman", "GS"); ("morgan stanley", "MS");
    ("bank of america", "BAC"); ("wells fargo", "WFC");
    ("walmart", "WMT"); ("target", "TGT"); ("costco", "COST");
    ("mcdonald", "MCD"); ("coca cola", "KO"); ("pepsi", "PEP");
    ("exxon", "XOM"); ("chevron", "CVX"); ("shell", "SHEL");
    ("pfizer", "PFE"); ("moderna", "MRNA"); ("johnson", "JNJ");
    ("merck", "MRK"); ("at&t", "T"); ("verizon", "VZ") ].

(** First loop of [_get_symbol]:
    [for ticker in COMPANY_SYMBOLS.values(): if ticker.lower() == query_lower]. *)
Fixpoint ticker_pass (rt : runtime) (table : list (string * string))
    (query_lower : string) : option string :=
  match table with
  | [] => None
  | (_, ticker) :: rest =>
      if String.eqb (str_lower rt ticker) query_lower then Some ticker
      else ticker_pass rt rest query_lower
  end.

(** Second loop:
    [for name, ticker in COMPANY_SYMBOLS.items(): if name in query_lower]. *)
Fixpoint name_pass (table : list (string * string)) (query_lower : string)
  : option string :=
  match table with
  | [] => None
  | (name, ticker) :: rest =>
      if contains name query_lower then Some ticker
      else name_pass rest query_lower
  end.

(** The body of [_get_symbol] after the guard, on a [str] argument;
    [query_lower = query.lower().strip()]. *)
Definition lookup_symbol (rt : runtime) (query : string) : option string :=
  let query_lower := str_strip rt (str_lower rt query) in
  match ticker_pass rt COMPANY_SYMBOLS query_lower with
  | Some ticker => Some ticker
  | None => name_pass COMPANY_SYMBOLS query_lower
  end.



(** [_get_symbol(query)] *)
Definition _get_symbol (rt : runtime) (query : value) : option string :=
  if (negb (truthy query) || negb (is_str query))%bool then None
  else lookup_symbol rt (text_of query).

(** *** The process and its surroundings *)

(** The failures of a request that [get_stock_price] names in an
    [except] clause: [requests.exceptions.Timeout], any other
    [RequestException] (connection, HTTP status, undecodable body), and
    the plain [ValueError] that [response.json()] raises in older
    releases. *)
Inductive transport_error : Type := TimedOut | Failed | Undecodable.

(** What lines 130-132 end in: one of the failures above, an exception
    of another class ([response.json()] raises [RecursionError] on a
    body nested too deep), or the decoded body. *)
Inductive response : Type :=
| Broken (why : transport_error) (text : string)
| Crashed (text : string)
| Payload (data : value).

(** The surroundings of a call: the credential read from the process
    environment at import time, the wall clock (microseconds, indexed by
    the number of earlier readings) and the remote service (indexed by the
    number of earlier requests). *)
Record env : Type := Env {
  ALPHAVANTAGE_API_KEY : option string;
  clock : nat -> Z;
  network : nat -> string -> response
}.

Inductive event : Type :=
| Resolve (query : value)
| HttpGet (url : string).

(** Module-level state, with the log of resolver calls and requests. *)
Record world : Type := World {
  API_CALL_CACHE : gmap string (string * Z);
  ticks : nat;
  trace : list event
}.

(** [CACHE_DURATION = timedelta(minutes=60)], in microseconds. *)
Definition CACHE_DURATION : Z := 60 * 60 * 1000000.

Definition M (A : Type) : Type := world -> res A * world.

Definition ret {A : Type} (a : A) : M A := fun w => (Ret a, w).

Definition bind {A B : Type} (m : M A) (k : A -> M B) : M B :=
  fun w =>
    match m w with
    | (Ret a, w') => k a w'
    | (Raise e, w') => (Raise e, w')
    end.

Notation "'let*' x ':=' m 'in' k" := (bind m (fun x => k))
  (at level 10, x name, m at level 100, k at level 200, only parsing).

Definition lift {A : Type} (r : res A) : M A := fun w => (r, w).

(** [try: body except ...: handler]; a handler of [None] lets the
    exception through. *)
Definition try_except {A : Type} (body : M A) (handler : pyexn -> option (M A))
  : M A :=
  fun w =>
    match body w with
    | (Ret a, w') => (Ret a, w')
    | (Raise e, w') =>
        match handler e with
        | Some h => h w'
        | None => (Raise e, w')
        end
    end.

(** [datetime.now()] *)
Definition now (e : env) : M Z :=
  fun w =>
    (Ret (clock e (ticks w)),
     World (API_CALL_CACHE w) (S (ticks w)) (trace w)).

Definition is_request (ev : event) : bool :=
  match ev with HttpGet _ => true | Resolve _ => false end.

Definition requests_sent (w : world) : nat :=
  length (filter (fun ev => is_request ev = true) (trace w)).

Definition log (ev : event) (w : world) : world :=
  World (API_CALL_CACHE w) (ticks w) (trace w ++ [ev]).

Definition transport_exn (why : transport_error) (text : string) : pyexn :=
  match why with
  | TimedOut => Exn Timeout text
  | Failed => Exn RequestException text
  | Undecodable => Exn ValueError text
  end.

(** [requests.get(url, timeout=10)], [raise_for_status()], [json()]. *)
Definition http_get (e : env) (url : string) : M value :=
  fun w =>
    match network e (requests_sent w) url with
    | Broken why text => (Raise (transport_exn why text), log (HttpGet url) w)
    | Crashed text => (Raise (Exn RecursionError text), log (HttpGet url) w)
    | Payload data => (Ret data, log (HttpGet url) w)
    end.

(** A call of [_get_symbol], recorded in the log. *)
Definition resolve (rt : runtime) (query : value) : M (option string) :=
  fun w => (Ret (_get_symbol rt query), log (Resolve query) w).

(** *** The cache, as the client reads and writes it *)

(** Lines 114-117 of [get_stock_price]: the entry is used when
    [datetime.now() - cached_time < CACHE_DURATION]; the clock is read only
    when the key is present; nothing is written. *)
Definition cache_get (e : env) (cache_key : string) : M (option string) :=
  fun w =>
    match API_CALL_CACHE w !! cache_key with
    | Some (cached_result, cached_time) =>
        (let* t := now e in
         ret (if Z.ltb (t - cached_time) CACHE_DURATION
              then Some cached_result else None)) w
    | None => (Ret None, w)
    end.

(** Line 151: [API_CALL_CACHE[cache_key] = (result, datetime.now())]. *)
Definition cache_put (e : env) (cache_key result : string) : M unit :=
  let* t := now e in
  fun w =>
    (Ret tt,
     World (<[cache_key := (result, t)]> (API_CALL_CACHE w)) (ticks w) (trace w)).

(** [clear_cache()] *)
Definition clear_cache : M unit :=
  fun w => (Ret tt, World ∅ (ticks w) (trace w)).

(** [not ALPHAVANTAGE_API_KEY] *)
Definition key_unset (e : env) : bool :=
  match ALPHAVANTAGE_API_KEY e with
  | None => true
  | Some k => is_empty k
  end.

Definition key_text (e : env) : string :=
  from_option id EmptyString (ALPHAVANTAGE_API_KEY e).

(** *** [get_stock_price] *)

Definition MSG_INVALID_QUERY : string :=
  "❌ Invalid query. Please provide a company name or stock ticker.".

Definition MSG_KEY_MISSING : string :=
  "⚠️ Alpha Vantage API key not configured. Please set ALPHAVANTAGE_API_KEY in .env".

Definition MSG_TIMEOUT : string :=
  "⏱️ Request timeout - Alpha Vantage server is slow, please try again.".

Definition msg_unidentified (query : string) : string :=
  "❌ Could not identify stock for '" +:+ query +:+ "'. " +:+
  "Try: AAPL, MSFT, GOOGL, or company names like Apple, Microsoft".

Definition msg_no_data (symbol : string) : string :=
  "⚠️ Could not retrieve stock data for " +:+ symbol +:+ ". Please try again.".

Definition UP : string := "📈".
Definition DOWN : string := "📉".

(** The f-string of line 148. *)
Definition price_line (emoji symbol price change change_percent : string)
  : string :=
  emoji +:+ " " +:+ symbol +:+ " is trading at $" +:+ price +:+
  ", change: " +:+ change +:+ " (" +:+ change_percent +:+ "%)".

Definition quote_url (symbol key : string) : string :=
  "https://www.alphavantage.co/query?function=GLOBAL_QUOTE&symbol=" +:+
  symbol +:+ "&apikey=" +:+ key.

(** The body of the [try] block, lines 128-152. *)
Definition price_attempt (rt : runtime) (e : env) (symbol cache_key : string)
  : M string :=
  let* data := http_get e (quote_url symbol (key_text e)) in
  let* has_error := lift (py_in rt "Error Message" data) in
  if has_error : bool then
    let* text := lift (py_getitem rt data "Error Message") in
    ret ("⚠️ API Error: " +:+ py_str rt text)
  else
    let* quote := lift (py_get rt data "Global Quote" (VDict [])) in
    let* unusable :=
      (if negb (truthy quote) then ret true
       else let* present := lift (py_in rt "05. price" quote) in
            ret (negb present)) in
    if unusable : bool then ret (msg_no_data symbol)
    else
      let* raw := lift (py_getitem rt quote "05. price") in
      let* price := lift (py_float rt raw) in
      let* change := lift (py_get rt quote "09. change" (VStr "N/A")) in
      let* percent := lift (py_get rt quote "10. change percent" (VStr "N/A")) in
      let* change_percent := lift (py_rstrip rt percent "%") in
      let emoji := if negb (startswith "-" change_percent) then UP else DOWN in
      let result :=
        price_line emoji symbol (format_2f rt price) (py_str rt change)
                   change_percent in
      let* _ := cache_put e cache_key result in
      ret result.

(** The [except] clauses, lines 154-159, in their order. *)
Definition price_handler (ex : pyexn) : option (M string) :=
  match exn_cls ex with
  | Timeout => Some (ret MSG_TIMEOUT)
  | RequestException => Some (ret ("❌ Network error: " +:+ exn_text ex))
  | KeyError | ValueError => Some (ret ("❌ Error parsing data: " +:+ exn_text ex))
  | _ => None
  end.

Definition get_stock_price (rt : runtime) (e : env) (query : value) : M string :=
  if (negb (truthy query) || negb (is_str query))%bool then
    ret MSG_INVALID_QUERY
  else if key_unset e then
    ret MSG_KEY_MISSING
  else
    let cache_key := "price_" +:+ str_lower rt (text_of query) in
    let* cached := cache_get e cache_key in
    match cached with
    | Some cached_result => ret cached_result
    | None =>
        let* symbol := resolve rt query in
        match symbol with
        | None => ret (msg_unidentified (text_of query))
        | Some symbol =>
            if is_empty symbol then ret (msg_unidentified (text_of query))
            else try_except (price_attempt rt e symbol cache_key) price_handler
        end
    end.

(** *** [get_intraday_data] *)

Definition MSG_INVALID_QUERY_SHORT : string := "❌ Invalid query provided.".

Definition MSG_INVALID_INTERVAL : string :=
  "❌ Invalid interval. Choose from: 1min, 5min, 15min, 30min, 60min".

Definition MSG_KEY_MISSING_SHORT : string :=
  "⚠️ Alpha Vantage API key not configured.".

Definition INTERVALS : list string :=
  ["1min"; "5min"; "15min"; "30min"; "60min"].

(** [interval in INTERVALS] *)
Definition known_interval (interval : value) : bool :=
  existsb (fun s => eq_text s interval) INTERVALS.

Definition intraday_url (symbol interval key : string) : string :=
  "https://www.alphavantage.co/query?" +:+
  "function=TIME_SERIES_INTRADAY&symbol=" +:+ symbol +:+
  "&interval=" +:+ interval +:+ "&apikey=" +:+ key.

(** The body of the [try] block, lines 187-215. *)
Definition intraday_attempt (rt : runtime) (e : env) (symbol interval : string)
  : M string :=
  let* data := http_get e (intraday_url symbol interval (key_text e)) in
  let* has_error := lift (py_in rt "Error Message" data) in
  if has_error : bool then
    let* text := lift (py_getitem rt data "Error Message") in
    ret ("⚠️ API Error: " +:+ py_str rt text)
  else
    let time_series_key := "Time Series (" +:+ interval +:+ ")" in
    let* present := lift (py_in rt time_series_key data) in
    if negb present then
      ret ("⚠️ Could not retrieve intraday data for " +:+ symbol +:+ ".")
    else
      let* time_series := lift (py_getitem rt data time_series_key) in
      let* latest_time := lift (py_first_key rt time_series) in
      let* latest_data := lift (py_getitem rt time_series latest_time) in
      let* o := lift (py_getitem rt latest_data "1. open") in
      let* h := lift (py_getitem rt latest_data "2. high") in
      let* l := lift (py_getitem rt latest_data "3. low") in
      let* c := lift (py_getitem rt latest_data "4. close") in
      let* v := lift (py_getitem rt latest_data "5. volume") in
      ret ("📊 " +:+ symbol +:+ " Intraday (" +:+ interval +:+ ") - " +:+
           latest_time +:+ ":" +:+ String "010" "" +:+
           "Open: $" +:+ py_str rt o +:+ ", " +:+
           "High: $" +:+ py_str rt h +:+ ", " +:+
           "Low: $" +:+ py_str rt l +:+ ", " +:+
           "Close: $" +:+ py_str rt c +:+ ", " +:+
           "Volume: " +:+ py_str rt v).

(** [except Exception as e], line 217. *)
Definition intraday_handler (ex : pyexn) : option (M string) :=
  Some (ret ("❌ Error fetching intraday data: " +:+ exn_text ex)).

Definition get_intraday_data (rt : runtime) (e : env) (query interval : value)
  : M string :=
  if (negb (truthy query) || negb (is_str query))%bool then
    ret MSG_INVALID_QUERY_SHORT
  else if negb (known_interval interval) then
    ret MSG_INVALID_INTERVAL
  else if key_unset e then
    ret MSG_KEY_MISSING_SHORT
  else
    let* symbol := resolve rt query in
    match symbol with
    | None =>
        ret ("❌ Could not identify stock for '" +:+ text_of query +:+ "'.")
    | Some symbol =>
        if is_empty symbol then
          ret ("❌ Could not identify stock for '" +:+ text_of query +:+ "'.")
        else
          try_except (intraday_attempt rt e symbol (text_of interval))
                     intraday_handler
    end.

(** *** [get_company_info] *)

(** The dict literal [company_info], lines 239-248. *)
Definition company_info : list (string * string) :=
  [ ("AAPL", "Apple Inc. - Technology, Founded 1976");
    ("MSFT", "Microsoft Corporation - Technology, Founded 1975");
    ("GOOGL", "Alphabet Inc. - Technology, Founded 1998");
    ("AMZN", "Amazon.com Inc. - E-commerce/Cloud, Founded 1994");
    ("TSLA", "Tesla Inc. - EV/Energy, Founded 2003");
    ("NVDA", "NVIDIA Corporation - Semiconductors, Founded 1993");
    ("META", "Meta Platforms - Social Media/Tech, Founded 2004");
    ("INTC", "Intel Corporation - Semiconductors, Founded 1968") ].

Fixpoint lookup_text (k : string) (items : list (string * string))
  : option string :=
  match items with
  | [] => None
  | (k', v) :: rest => if String.eqb k k' then Some v else lookup_text k rest
  end.

Definition msg_unidentified_short (query : string) : string :=
  "❌ Could not identify stock for '" +:+ query +:+ "'.".

(** The f-string of line 250, with the default of [company_info.get]. *)
Definition info_line (symbol : string) : string :=
  "ℹ️ " +:+ symbol +:+ ": " +:+
  from_option id ("Stock ticker: " +:+ symbol) (lookup_text symbol company_info).

Definition get_company_info (rt : runtime) (query : value) : M string :=
  if (negb (truthy query) || negb (is_str query))%bool then
    ret MSG_INVALID_QUERY_SHORT
  else
    let* symbol := resolve rt query in
    match symbol with
    | None => ret (msg_unidentified_short (text_of query))
    | Some symbol =>
        if is_empty symbol then ret (msg_unidentified_short (text_of query))
        else ret (info_line symbol)
    end.

End Api.

(** ** [utils/memory.py] *)
Module Memory.
Import PyStr Py.

Definition MAX_MEMORY : nat := 10.

(** [l[-n:]] for a positive n. *)
Definition last_n {A : Type} (n : nat) (l : list A) : list A :=
  skipn (length l - n)%nat l.

(** [add_to_memory(user_message, bot_response)] on the module-level list
    [conversation_memory]. *)
Definition add_to_memory (rt : runtime) (user_message bot_response : value)
    (conversation_memory : list (string * string))
  : res unit * list (string * string) :=
  if (negb (truthy user_message) || negb (is_str user_message))%bool then
    (Raise (Exn ValueError "user_message must be a non-empty string"),
     conversation_memory)
  else if (negb (truthy bot_response) || negb (is_str bot_response))%bool then
    (Raise (Exn ValueError "bot_response must be a non-empty string"),
     conversation_memory)
  else
    let appended :=
      conversation_memory ++
      [(str_strip rt (text_of user_message),
        str_strip rt (text_of bot_response))] in
    (Ret tt,
     if (MAX_MEMORY <? length appended)%nat then last_n MAX_MEMORY appended
     else appended).

Definition NEWLINE : string := String "010" EmptyString.

Fixpoint join (sep : string) (parts : list string) : string :=
  match parts with
  | [] => EmptyString
  | [part] => part
  | part :: rest => part +:+ sep +:+ join sep rest
  end.

(** [get_recent_memory()] *)
Definition get_recent_memory (conversation_memory : list (string * string))
  : string :=
  match conversation_memory with
  | [] => EmptyString
  | _ =>
      join NEWLINE
        (map (fun '(u, b) => "User: " +:+ u +:+ NEWLINE +:+ "Bot: " +:+ b)
             (last_n MAX_MEMORY conversation_memory))
  end.

(** [clear_memory()] *)
Definition clear_memory (conversation_memory : list (string * string))
  : list (string * string) := [].

(** A run of calls from a given buffer; stops at the first call that
    raises. *)
Fixpoint add_all (rt : runtime) (calls : list (value * value))
    (conversation_memory : list (string * string))
  : res unit * list (string * string) :=
  match calls with
  | [] => (Ret tt, conversation_memory)
  | (u, b) :: rest =>
      match add_to_memory rt u b conversation_memory with
      | (Ret _, m) => add_all rt rest m
      | (Raise e, m) => (Raise e, m)
      end
  end.

End Memory.
(** ** A runtime for the worked examples *)
Module Sample.
Import PyStr Py Api.

Definition digit_of (c : ascii) : option Z :=
  let n := N_of_ascii c in
  if (N.leb 48 n && N.leb n 57)%bool then Some (Z.of_N n - 48) else None.

(** Reads [digits] or [digits.digits]: the digits seen so far as an
    integer, and how many of them follow the point. *)
Fixpoint read_decimal (s : string) (acc : Z) (seen_point seen_digit : bool)
    (scale : nat) : option (Z * nat) :=
  match s with
  | EmptyString => if seen_digit then Some (acc, scale) else None
  | String c s' =>
      match digit_of c with
      | Some d =>
          read_decimal s' (10 * acc + d) seen_point true
                       (if seen_point then S scale else scale)
      | None =>
          if (Ascii.eqb c "." && negb seen_point)%bool
          then read_decimal s' acc true seen_digit scale
          else None
      end
  end.

Definition signed (negative : bool) (x : spec_float) : spec_float :=
  if negative then SFopp x else x.

(** The binary64 nearest to [m / 10^scale] (ties to even). *)
Definition nearest (m : Z) (scale : nat) : spec_float :=
  match m with
  | Zpos p =>
      SFdiv 53 1024 (S754_finite false p 0)
            (S754_finite false (Z.to_pos (10 ^ Z.of_nat scale)) 0)
  | _ => S754_zero false
  end.

(** [float(s)] on plain decimal literals, with an optional sign and
    surrounding blanks.  The exponent, underscore, [inf] and [nan]
    spellings are not read. *)
Definition float_of_text (s : string) : option float :=
  let body := strip s in
  let '(negative, digits) :=
    match body with
    | String "-" r => (true, r)
    | String "+" r => (false, r)
    | _ => (false, body)
    end in
  match read_decimal digits 0 false false 0 with
  | Some (m, scale) => Some (SF2Prim (signed negative (nearest m scale)))
  | None => None
  end.

(** [float(n)]: the nearest binary64, or [OverflowError]. *)
Definition float_of_int (n : Z) : option float :=
  match SF2Prim (binary_normalize 53 1024 n 0 false) with
  | x => if PrimFloat.is_infinity x then None else Some x
  end.

Definition decimal (n : Z) : string :=
  NilZero.string_of_uint (N.to_uint (Z.to_N n)).

(** [round(m * 2^e * 100)], ties to even. *)
Definition hundredths (m : positive) (e : Z) : Z :=
  if Z.leb 0 e then Zpos m * 2 ^ e * 100
  else
    let den := 2 ^ (- e) in
    let q := (Zpos m * 100) / den in
    let r := (Zpos m * 100) mod den in
    if Z.ltb (2 * r) den then q
    else if Z.ltb den (2 * r) then q + 1
    else if Z.even q then q else q + 1.

Definition two_digits (n : Z) : string :=
  if Z.ltb n 10 then "0" +:+ decimal n else decimal n.

(** [f"{x:.2f}"] *)
Definition format_2f (x : float) : string :=
  match Prim2SF x with
  | S754_nan => "nan"
  | S754_infinity s => if s then "-inf" else "inf"
  | S754_zero s => if s then "-0.00" else "0.00"
  | S754_finite s m e =>
      let h := hundredths m e in
      (if s then "-" else "") +:+ decimal (h / 100) +:+ "." +:+
      two_digits (h mod 100)
  end.

Definition type_name (v : value) : string :=
  match v with
  | VNone => "NoneType" | VBool _ => "bool" | VInt _ => "int"
  | VFloat _ => "float" | VStr _ => "str" | VList _ => "list"
  | VDict _ => "dict"
  end.

(** [str(v)] where the examples need it; other objects are rendered by
    the name of their type. *)
Definition str_of_object (v : value) : string :=
  match v with
  | VNone => "None"
  | VBool b => if b then "True" else "False"
  | VInt n => (if Z.ltb n 0 then "-" else "") +:+ decimal (Z.abs n)
  | _ => type_name v
  end.

Definition quoted (s : string) : string := "'" +:+ s +:+ "'".

(** The wording of CPython 3.12. *)
Definition fault_text (f : fault) : string :=
  match f with
  | NotContainer c =>
      "argument of type " +:+ quoted (type_name c) +:+ " is not iterable"
  | BadSubscript (VList _) _ =>
      "list indices must be integers or slices, not str"
  | BadSubscript (VStr _) _ => "string indices must be integers, not 'str'"
  | BadSubscript c _ =>
      quoted (type_name c) +:+ " object is not subscriptable"
  | NoAttribute c attr =>
      quoted (type_name c) +:+ " object has no attribute " +:+ quoted attr
  | MissingKey k => quoted k
  | EmptyIndex => "list index out of range"
  | BadFloatText s => "could not convert string to float: " +:+ quoted s
  | BadFloatArg v =>
      "float() argument must be a string or a real number, not " +:+
      quoted (type_name v)
  | IntTooLarge _ => "int too large to convert to float"
  end.

(** The runtime of the examples; it lower-cases and strips as the
    interpreter does on ASCII text, and treats no other character as a
    letter or as white space. *)
Definition rt : runtime :=
  Runtime float_of_text float_of_int format_2f str_of_object fault_text
          lower strip (fun _ _ => eq_refl) (fun _ _ => eq_refl).


(** A clock that advances thirty minutes between two readings. *)
Definition half_hours (n : nat) : Z := 1800000000 * Z.of_nat n.

(** A service that answers every request with the same decoded body. *)
Definition answering (body : value) : nat -> string -> response :=
  fun _ _ => Payload body.

Definition env_with (key : option string) (body : value) : env :=
  Env key half_hours (answering body).

(** The quote of the fetch-price scenario. *)
Definition full_quote : value :=
  VDict [("Global Quote",
          VDict [("05. price", VStr "150.25"); ("09. change", VStr "1.20");
                 ("10. change percent", VStr "0.80%")])].

(** The service of the fetch-price scenario, with a credential. *)
Definition demo : env := env_with (Some "demo") full_quote.

(** A freshly imported module: empty cache, nothing logged. *)
Definition fresh : world := World ∅ 0 [].

(** Thirteen exchanges, numbered in the order they are added. *)
Definition thirteen : list (string * string) :=
  [("u1", "b1"); ("u2", "b2"); ("u3", "b3"); ("u4", "b4"); ("u5", "b5");
   ("u6", "b6"); ("u7", "b7"); ("u8", "b8"); ("u9", "b9"); ("u10", "b10");
   ("u11", "b11"); ("u12", "b12"); ("u13", "b13")].

(** A quote of a falling price. *)
Definition falling_quote : value :=
  VDict [("Global Quote",
          VDict [("05. price", VStr "98.25"); ("09. change", VStr "-1.25");
                 ("10. change percent", VStr "-1.26%")])].

(** A service whose every answer fails in a way no [except] clause of
    [get_stock_price] names. *)
Definition crashing (text : string) : env :=
  Env (Some "demo") half_hours (fun _ _ => Crashed text).

(** A quote with a price and nothing else. *)
Definition bare_quote : value :=
  VDict [("Global Quote", VDict [("05. price", VStr "150.25")])].

(** A quote without a price. *)
Definition priceless_quote : value :=
  VDict [("Global Quote", VDict [("09. change", VStr "1.20")])].

(** A quote whose price is JSON [null]. *)
Definition null_quote : value :=
  VDict [("Global Quote", VDict [("05. price", VNone)])].

(** A service whose every request breaks in the same way. *)
Definition breaking (why : transport_error) (text : string) : env :=
  Env (Some "demo") half_hours (fun _ _ => Broken why text).

(** An error payload of the remote service. *)
Definition error_body : value :=
  VDict [("Error Message", VStr "Invalid API call.")].

(** A quote whose price is not a number. *)
Definition garbled_quote : value :=
  VDict [("Global Quote", VDict [("05. price", VStr "n/a")])].

(** An intraday answer with two records, the later one first. *)
Definition two_records : value :=
  VDict [("Time Series (5min)",
          VDict [("2024-01-02 16:00:00",
                  VDict [("1. open", VStr "10.0"); ("2. high", VStr "12.0");
                         ("3. low", VStr "9.5"); ("4. close", VStr "11.0");
                         ("5. volume", VStr "1200")]);
                 ("2024-01-02 15:55:00",
                  VDict [("1. open", VStr "9.0"); ("2. high", VStr "10.5");
                         ("3. low", VStr "8.5"); ("4. close", VStr "10.0");
                         ("5. volume", VStr "800")])])].

(** An intraday answer whose series is empty. *)
Definition empty_series : value :=
  VDict [("Time Series (5min)", VDict [])].

End Sample.

(** ** Vocabulary of the statements *)
Module Notions.
Import PyStr Py Api.

(** [a] occurs in [s] as a contiguous block. *)
Definition substring (a s : string) : Prop :=
  exists u v, s = u +:+ a +:+ v.

(** [q] is [t] with the case of some of the letters A to Z, a to z
    changed. *)
Inductive case_variant : string -> string -> Prop :=
| cv_nil : case_variant EmptyString EmptyString
| cv_cons (a b : ascii) (q t : string) :
    a = b \/ a = lower_char b \/ a = upper_char b ->
    case_variant q t ->
    case_variant (String a q) (String b t).

(** The world in which the response to a price request is handled: the
    cache as it was, the clock advanced by whatever the cache lookup read,
    the resolver call and the request logged. *)
Definition arrived (rt : runtime) (e : env) (w : world) (q T : string)
  : world :=
  World (API_CALL_CACHE w)
        (ticks (snd (cache_get e ("price_" +:+ str_lower rt q) w)))
        (trace w ++ [Resolve (VStr q); HttpGet (quote_url T (key_text e))]).

(** A table row of ASCII texts whose alias and whose ticker both resolve
    to the ticker. *)
Definition row_ok (row : string * string) : bool :=
  let '(a, t) := row in
  (bool_decide (_get_symbol Sample.rt (VStr a) = Some t) &&
   bool_decide (_get_symbol Sample.rt (VStr t) = Some t) &&
   negb (is_empty t) && is_ascii a && is_ascii t)%bool.

(** An argument that [add_to_memory] refuses: the empty text, [None], or
    anything that is not text. *)
Definition rejected (v : value) : Prop :=
  v = VStr EmptyString \/ v = VNone \/ (forall s, v <> VStr s).

(** A text made of ASCII white space only. *)
Definition blank (s : string) : Prop :=
  forall c, In c (list_ascii_of_string s) -> is_space c = true.

(** A pair of texts as the caller passes it, and as the buffer keeps it. *)
Definition call_of (p : string * string) : value * value :=
  (VStr (fst p), VStr (snd p)).

Definition stored (rt : runtime) (p : string * string) : string * string :=
  (str_strip rt (fst p), str_strip rt (snd p)).

Definition nonempty_pair (p : string * string) : Prop :=
  fst p <> EmptyString /\ snd p <> EmptyString.

(** The world in which [get_stock_price] enters its [try] block: the
    cache as it was, the clock advanced by whatever the cache lookup read,
    the resolver call logged. *)
Definition resolved (rt : runtime) (e : env) (w : world) (q : string)
  : world :=
  World (API_CALL_CACHE w)
        (ticks (snd (cache_get e ("price_" +:+ str_lower rt q) w)))
        (trace w ++ [Resolve (VStr q)]).

(** The message [get_stock_price] gives for a request that broke. *)
Definition failure_message (why : transport_error) (text : string) : string :=
  match why with
  | TimedOut => MSG_TIMEOUT
  | Failed => "❌ Network error: " +:+ text
  | Undecodable => "❌ Error parsing data: " +:+ text
  end.

(** A text built by the f-string of line 148. *)
Definition is_price_line (symbol line : string) : Prop :=
  exists emoji price change percent,
    line = price_line emoji symbol price change percent.

(** A described company whose ticker resolves to itself and whose
    description is the one the dict returns for it. *)
Definition described_ok (row : string * string) : bool :=
  let '(t, d) := row in
  (bool_decide (_get_symbol Sample.rt (VStr t) = Some t) &&
   bool_decide (lookup_text t company_info = Some d) && is_ascii t)%bool.

(** The text ends with none of the characters of [chars]. *)
Definition ends_clean (chars s : string) : Prop :=
  forall u c, s = u +:+ String c EmptyString -> mem_char c chars = false.

(** The text is made of characters of [chars] only. *)
Definition made_of (chars s : string) : Prop :=
  forall c, In c (list_ascii_of_string s) -> mem_char c chars = true.

End Notions.

(* ===================================================================== *)
(** * Part II: properties                                                 *)
(* ===================================================================== *)

(** ** Facts about the string methods *)
Module PyStrFacts.
Import PyStr Notions.

Lemma app_cons (c : ascii) (s t : string) :
  String c s +:+ t = String c (s +:+ t).
Proof. reflexivity. Qed.

Lemma app_nil (t : string) : EmptyString +:+ t = t.
Proof. reflexivity. Qed.

Lemma prefix_app (p s : string) :
  String.prefix p s = true <-> exists v, s = p +:+ v.
Proof.
  revert s. induction p as [|c p IH]; intros s.
  - split; [intros _; exists s; reflexivity | intros _; destruct s; reflexivity].
  - destruct s as [|d s].
    + split; [discriminate | intros [v Hv]; rewrite app_cons in Hv; discriminate].
    + cbn [String.prefix]. destruct (ascii_dec c d) as [->|Hne].
      * rewrite IH. split; intros [v Hv]; exists v.
        -- rewrite app_cons. congruence.
        -- rewrite app_cons in Hv. congruence.
      * split; [discriminate | intros [v Hv]].
        rewrite app_cons in Hv. congruence.
Qed.

Lemma contains_substring (a s : string) :
  contains a s = true <-> substring a s.
Proof.
  induction s as [|d s IH].
  - cbn [contains]. rewrite orb_false_r, prefix_app. split.
    + intros [v Hv]. exists EmptyString, v. exact Hv.
    + intros [u [v Huv]]. destruct u as [|c u].
      * exists v. exact Huv.
      * rewrite app_cons in Huv. discriminate.
  - cbn [contains]. rewrite orb_true_iff, prefix_app, IH. split.
    + intros [[v Hv] | [u [v Huv]]].
      * exists EmptyString, v. exact Hv.
      * exists (String d u), v. rewrite app_cons. congruence.
    + intros [u [v Huv]]. destruct u as [|c u].
      * left. exists v. exact Huv.
      * right. rewrite app_cons in Huv. exists u, v. congruence.
Qed.

Lemma lower_char_idem (c : ascii) : lower_char (lower_char c) = lower_char c.
Proof. destruct c as [[] [] [] [] [] [] [] []]; reflexivity. Qed.

Lemma lower_upper_char (c : ascii) : lower_char (upper_char c) = lower_char c.
Proof. destruct c as [[] [] [] [] [] [] [] []]; reflexivity. Qed.

Lemma case_variant_lower (q t : string) :
  case_variant q t -> lower q = lower t.
Proof.
  induction 1 as [|a b q t Hab _ IH]; [reflexivity|].
  cbn [lower]. rewrite IH. f_equal.
  destruct Hab as [->|[->| ->]];
    [reflexivity | apply lower_char_idem | apply lower_upper_char].
Qed.

Lemma case_variant_empty (q t : string) :
  case_variant q t -> is_empty q = is_empty t.
Proof. destruct 1; reflexivity. Qed.

Lemma lstrip_all (p : ascii -> bool) (s : string) :
  (forall c, In c (list_ascii_of_string s) -> p c = true) ->
  lstrip_by p s = EmptyString.
Proof.
  induction s as [|c s IH]; intros Hall; [reflexivity|].
  cbn [lstrip_by]. rewrite (Hall c) by (left; reflexivity).
  apply IH. intros d Hd. apply Hall. right. exact Hd.
Qed.

(** A text made of blanks only strips to the empty text. *)
Lemma strip_blank (s : string) :
  (forall c, In c (list_ascii_of_string s) -> is_space c = true) ->
  strip s = EmptyString.
Proof. intros Hall. unfold strip. rewrite lstrip_all by exact Hall. reflexivity. Qed.

Lemma is_ascii_app (s t : string) :
  is_ascii (s +:+ t) = (is_ascii s && is_ascii t)%bool.
Proof.
  induction s as [|c s IH]; [reflexivity|].
  rewrite app_cons. cbn [is_ascii]. rewrite IH, andb_assoc. reflexivity.
Qed.

Lemma lower_char_ascii (c : ascii) :
  N.ltb (N_of_ascii (lower_char c)) 128 = N.ltb (N_of_ascii c) 128.
Proof. destruct c as [[] [] [] [] [] [] [] []]; reflexivity. Qed.

Lemma upper_char_ascii (c : ascii) :
  N.ltb (N_of_ascii (upper_char c)) 128 = N.ltb (N_of_ascii c) 128.
Proof. destruct c as [[] [] [] [] [] [] [] []]; reflexivity. Qed.

Lemma lower_is_ascii (s : string) : is_ascii (lower s) = is_ascii s.
Proof.
  induction s as [|c s IH]; [reflexivity|].
  cbn [lower is_ascii]. rewrite lower_char_ascii, IH. reflexivity.
Qed.

Lemma case_variant_ascii (q t : string) :
  case_variant q t -> is_ascii q = is_ascii t.
Proof.
  induction 1 as [|a b q t Hab _ IH]; [reflexivity|].
  cbn [is_ascii]. rewrite IH. f_equal.
  destruct Hab as [->|[->| ->]];
    [reflexivity | apply lower_char_ascii | apply upper_char_ascii].
Qed.

Lemma space_is_ascii (c : ascii) :
  is_space c = true -> N.ltb (N_of_ascii c) 128 = true.
Proof. destruct c as [[] [] [] [] [] [] [] []]; intros H; try reflexivity; discriminate H. Qed.

Lemma blank_ascii (s : string) : blank s -> is_ascii s = true.
Proof.
  unfold blank. induction s as [|c s IH]; intros Hall; [reflexivity|].
  cbn [is_ascii]. rewrite (space_is_ascii c) by (apply Hall; left; reflexivity).
  apply IH. intros d Hd. apply Hall. right. exact Hd.
Qed.

(** [rstrip_by] cuts a tail made of the stripped characters and leaves a
    text that ends with none of them. *)
Lemma rstrip_by_split (p : ascii -> bool) (s : string) :
  exists tail,
    s = rstrip_by p s +:+ tail /\
    (forall c, In c (list_ascii_of_string tail) -> p c = true).
Proof.
  induction s as [|c s (tail & Hs & Htail)].
  - exists EmptyString. split; [reflexivity | intros c []].
  - cbn [rstrip_by]. destruct (rstrip_by p s) as [|x r] eqn:Hr.
    + rewrite app_nil in Hs. subst tail. destruct (p c) eqn:Hc.
      * exists (String c s). split; [reflexivity|].
        intros d [<- | Hd]; [exact Hc | exact (Htail d Hd)].
      * exists s. split; [reflexivity | exact Htail].
    + exists tail. split; [|exact Htail].
      rewrite app_cons. f_equal. exact Hs.
Qed.

Lemma snoc_empty (u : string) (c : ascii) :
  u +:+ String c EmptyString <> EmptyString.
Proof. destruct u; discriminate. Qed.

Lemma rstrip_by_clean (p : ascii -> bool) (s u : string) (c : ascii) :
  rstrip_by p s = u +:+ String c EmptyString -> p c = false.
Proof.
  revert u. induction s as [|d s IH]; intros u.
  - cbn [rstrip_by]. intros H. symmetry in H. destruct (snoc_empty u c H).
  - cbn [rstrip_by]. destruct (rstrip_by p s) as [|x r] eqn:Hr.
    + destruct (p d) eqn:Hd.
      * intros H. symmetry in H. destruct (snoc_empty u c H).
      * destruct u as [|y u].
        -- rewrite app_nil. intros [= <-]. exact Hd.
        -- rewrite app_cons. intros [= _ H]. destruct (snoc_empty u c (eq_sym H)).
    + destruct u as [|y u].
      * rewrite app_nil. intros H. discriminate H.
      * rewrite app_cons. intros [= _ H]. exact (IH u H).
Qed.

(** What [s.rstrip(chars)] is, said without the function: [s] is the
    result followed by characters of [chars] only, and the result ends
    with none of them. *)
Lemma rstrip_spec (chars s : string) :
  (exists tail, s = rstrip chars s +:+ tail /\ made_of chars tail) /\
  ends_clean chars (rstrip chars s).
Proof.
  split.
  - destruct (rstrip_by_split (fun c => mem_char c chars) s) as (tail & Hs & Ht).
    exists tail. split; [exact Hs | exact Ht].
  - intros u c Hu. exact (rstrip_by_clean _ s u c Hu).
Qed.

(** What [s.startswith(p)] is, said without the function. *)
Lemma startswith_spec (p s : string) :
  startswith p s = true <-> exists rest, s = p +:+ rest.
Proof. apply prefix_app. Qed.

End PyStrFacts.

(** ** The symbol resolver *)
Module ResolverSpec.
Import PyStr Py Api Notions PyStrFacts.

Lemma get_symbol_text (rt : runtime) (q : string) :
  _get_symbol rt (VStr q) = if is_empty q then None else lookup_symbol rt q.
Proof. destruct q; reflexivity. Qed.

(** On ASCII text the resolver sees a query only through its lower-cased
    form. *)
Lemma lookup_symbol_lower (q q' : string) :
  lower q = lower q' -> lookup_symbol Sample.rt q = lookup_symbol Sample.rt q'.
Proof.
  intros H. unfold lookup_symbol. cbn [str_lower str_strip Sample.rt].
  rewrite H. reflexivity.
Qed.

Lemma ticker_pass_ascii (rt : runtime) (table : list (string * string))
    (qn : string) :
  forallb (fun row => is_ascii (snd row)) table = true ->
  ticker_pass rt table qn = ticker_pass Sample.rt table qn.
Proof.
  induction table as [|[a t] rest IH]; [reflexivity|].
  cbn [forallb snd]. intros Hall. apply andb_prop in Hall as [Ht Hrest].
  cbn [ticker_pass]. rewrite (lower_ascii rt t Ht), (IH Hrest). reflexivity.
Qed.

Lemma tickers_ascii :
  forallb (fun row => is_ascii (snd row)) COMPANY_SYMBOLS = true.
Proof. vm_compute. reflexivity. Qed.

(** On a query of ASCII characters every runtime resolves as the
    runtime of the examples does. *)
Lemma get_symbol_ascii (rt : runtime) (q : string) :
  is_ascii q = true ->
  _get_symbol rt (VStr q) = _get_symbol Sample.rt (VStr q).
Proof.
  intros Hq. rewrite !get_symbol_text. destruct (is_empty q); [reflexivity|].
  unfold lookup_symbol. rewrite (ticker_pass_ascii rt _ _ tickers_ascii).
  rewrite (lower_ascii rt q Hq).
  rewrite (strip_ascii rt (lower q)) by (rewrite lower_is_ascii; exact Hq).
  reflexivity.
Qed.

Lemma table_rows_ok : forallb row_ok COMPANY_SYMBOLS = true.
Proof. vm_compute. reflexivity. Qed.

Lemma row_ok_at (a t : string) :
  In (a, t) COMPANY_SYMBOLS ->
  _get_symbol Sample.rt (VStr a) = Some t /\
  _get_symbol Sample.rt (VStr t) = Some t /\
  is_empty t = false /\ is_ascii a = true /\ is_ascii t = true.
Proof.
  intros Hin. pose proof table_rows_ok as Hall.
  rewrite forallb_forall in Hall. specialize (Hall _ Hin).
  unfold row_ok in Hall.
  apply andb_prop in Hall as [Hall HaT]. apply andb_prop in Hall as [Hall HaA].
  apply andb_prop in Hall as [Hall Ht]. apply andb_prop in Hall as [Ha Hs].
  apply bool_decide_eq_true_1 in Ha. apply bool_decide_eq_true_1 in Hs.
  apply negb_true_iff in Ht. auto.
Qed.

(** C4: every alias of the table resolves to its ticker, and so does the
    ticker itself written in any letter case. *)
Theorem resolve_alias_and_ticker (rt : runtime) (A T : string) :
  In (A, T) COMPANY_SYMBOLS ->
  _get_symbol rt (VStr A) = Some T /\
  (forall q, case_variant q T -> _get_symbol rt (VStr q) = Some T).
Proof.
  intros Hin. destruct (row_ok_at A T Hin) as (Ha & Ht & Hne & HaA & HaT).
  split; [rewrite (get_symbol_ascii rt A HaA); exact Ha|].
  intros q Hq.
  rewrite (get_symbol_ascii rt q) by (rewrite (case_variant_ascii q T Hq); exact HaT).
  rewrite get_symbol_text, (case_variant_empty q T Hq), Hne.
  rewrite get_symbol_text, Hne in Ht.
  rewrite (lookup_symbol_lower q T (case_variant_lower q T Hq)).
  exact Ht.
Qed.

Lemma resolve_alias_and_ticker_witness :
  In ("coca cola", "KO") COMPANY_SYMBOLS /\
  _get_symbol Sample.rt (VStr "coca cola") = Some "KO" /\
  _get_symbol Sample.rt (VStr "kO") = Some "KO".
Proof.
  assert (Hin : In ("coca cola", "KO") COMPANY_SYMBOLS).
  { unfold COMPANY_SYMBOLS. do 21 right. left. reflexivity. }
  split; [exact Hin|].
  destruct (resolve_alias_and_ticker Sample.rt "coca cola" "KO" Hin) as [Ha Ht].
  split; [exact Ha|].
  apply Ht.
  apply cv_cons; [right; left; reflexivity|].
  apply cv_cons; [left; reflexivity|].
  apply cv_nil.
Defined.

Lemma ticker_pass_none (rt : runtime) (table : list (string * string))
    (qn : string) :
  (forall a t, In (a, t) table -> str_lower rt t <> qn) ->
  ticker_pass rt table qn = None.
Proof.
  induction table as [|[a t] rest IH]; intros Hno; [reflexivity|].
  cbn [ticker_pass].
  destruct (String.eqb_spec (str_lower rt t) qn) as [Heq|_].
  - exfalso. apply (Hno a t); [left; reflexivity | exact Heq].
  - apply IH. intros a' t' Hin. apply (Hno a' t'). right. exact Hin.
Qed.

(** The second loop returns at the first row whose alias is contained. *)
Lemma name_pass_first (table : list (string * string)) (qn : string) :
  (exists pre a t post,
      table = pre ++ (a, t) :: post /\ contains a qn = true /\
      (forall a' t', In (a', t') pre -> contains a' qn = false) /\
      name_pass table qn = Some t) \/
  ((forall a t, In (a, t) table -> contains a qn = false) /\
   name_pass table qn = None).
Proof.
  induction table as [|[a t] rest IH].
  - right. split; [intros ? ? []|reflexivity].
  - cbn [name_pass]. destruct (contains a qn) eqn:Hc.
    + left. exists [], a, t, rest. repeat split; [exact Hc|intros ? ? []].
    + destruct IH as [(pre & a1 & t1 & post & -> & Hin1 & Hpre & Hres) | [Hall Hres]].
      * left. exists ((a, t) :: pre), a1, t1, post. repeat split; [exact Hin1| |exact Hres].
        intros a' t' [Heq|Hin]; [congruence|eauto].
      * right. split; [|exact Hres].
        intros a' t' [Heq|Hin]; [congruence|eauto].
Qed.

Lemma not_contains (a s : string) : contains a s = false <-> ~ substring a s.
Proof. rewrite <- contains_substring. destruct (contains a s); intuition congruence. Qed.

(** C5: a non-empty query whose normal form (the interpreter's
    [lower], then its [strip]) is the lower-cased form of no ticker
    resolves to the ticker of the first table row whose alias occurs
    inside the normal form, and to nothing exactly when no alias occurs
    inside it. *)
Theorem resolve_by_containment (rt : runtime) (q : string) :
  q <> EmptyString ->
  (forall a t, In (a, t) COMPANY_SYMBOLS ->
     str_lower rt t <> str_strip rt (str_lower rt q)) ->
  ((exists pre a t post,
       COMPANY_SYMBOLS = pre ++ (a, t) :: post /\
       substring a (str_strip rt (str_lower rt q)) /\
       (forall a' t', In (a', t') pre ->
          ~ substring a' (str_strip rt (str_lower rt q))) /\
       _get_symbol rt (VStr q) = Some t) \/
   ((forall a t, In (a, t) COMPANY_SYMBOLS ->
       ~ substring a (str_strip rt (str_lower rt q))) /\
    _get_symbol rt (VStr q) = None)).
Proof.
  intros Hq Hno.
  assert (Hsym : _get_symbol rt (VStr q) =
                 name_pass COMPANY_SYMBOLS (str_strip rt (str_lower rt q))).
  { rewrite get_symbol_text. destruct q as [|c q]; [congruence|].
    cbn [is_empty]. unfold lookup_symbol.
    rewrite (ticker_pass_none rt _ _ Hno). reflexivity. }
  rewrite Hsym.
  destruct (name_pass_first COMPANY_SYMBOLS (str_strip rt (str_lower rt q)))
    as [(pre & a & t & post & Htab & Hin & Hpre & Hres) | [Hall Hres]].
  - left. exists pre, a, t, post. repeat split; [exact Htab| |  |exact Hres].
    + apply contains_substring. exact Hin.
    + intros a' t' Hin'. apply not_contains. eauto.
  - right. split; [|exact Hres].
    intros a t Hin. apply not_contains. eauto.
Qed.

Lemma no_ticker_is (qn : string) :
  forallb (fun row => negb (String.eqb (lower (snd row)) qn)) COMPANY_SYMBOLS = true ->
  forall a t, In (a, t) COMPANY_SYMBOLS -> str_lower Sample.rt t <> qn.
Proof.
  intros Hall a t Hin. rewrite forallb_forall in Hall.
  specialize (Hall _ Hin). cbn [snd] in Hall.
  apply negb_true_iff, String.eqb_neq in Hall. exact Hall.
Qed.

(** Both "apple" and "microsoft" occur in the query; the row of
    "microsoft" comes first in the table. *)
Lemma resolve_by_containment_witness :
  _get_symbol Sample.rt (VStr "Apple or Microsoft?") = Some "MSFT".
Proof.
  destruct (resolve_by_containment Sample.rt "Apple or Microsoft?")
    as [(pre & a & t & post & Htab & _ & _ & Hres) | [_ Hres]].
  - discriminate.
  - apply no_ticker_is. vm_compute. reflexivity.
  - rewrite Hres. vm_compute in Hres. symmetry. exact Hres.
  - vm_compute in Hres. discriminate Hres.
Defined.

End ResolverSpec.

(** ** The cache *)
Module CacheSpec.
Import PyStr Py Api Sample.

Lemma bind_ret {A B : Type} (m : M A) (k : A -> M B) (w w' : world) (a : A) :
  m w = (Ret a, w') -> bind m k w = k a w'.
Proof. intros H. unfold bind. rewrite H. reflexivity. Qed.

(** Reading the cache never raises and never writes. *)
Lemma cache_get_reads (e : env) (k : string) (w : world) :
  exists o n,
    cache_get e k w = (Ret o, World (API_CALL_CACHE w) n (trace w)) /\
    (ticks w <= n)%nat.
Proof.
  unfold cache_get. destruct (API_CALL_CACHE w !! k) as [[r t]|].
  - eexists _, _. split; [reflexivity | cbn; lia].
  - exists None, (ticks w). destruct w; split; [reflexivity | cbn; lia].
Qed.

Lemma cache_get_hit (e : env) (k v : string) (t : Z) (w : world) :
  API_CALL_CACHE w !! k = Some (v, t) ->
  cache_get e k w =
    (Ret (if Z.ltb (clock e (ticks w) - t) CACHE_DURATION then Some v else None),
     World (API_CALL_CACHE w) (S (ticks w)) (trace w)).
Proof. intros H. unfold cache_get. rewrite H. reflexivity. Qed.

Lemma cache_put_writes (e : env) (k v : string) (w : world) :
  cache_put e k v w =
    (Ret tt,
     World (<[k := (v, clock e (ticks w))]> (API_CALL_CACHE w))
           (S (ticks w)) (trace w)).
Proof. reflexivity. Qed.

(** After [clear_cache()] every key misses. *)
Lemma clear_cache_misses (e : env) (k : string) (w : world) :
  fst (cache_get e k (snd (clear_cache w))) = Ret None.
Proof. unfold cache_get, clear_cache. cbn [snd API_CALL_CACHE]. rewrite lookup_empty. reflexivity. Qed.

(** C3: a value written under a key is read back as long as the clock
    shows less than sixty minutes since the write; from sixty minutes on
    the read is a miss, and the miss leaves the entry in place. *)
Theorem cache_round_trip (e : env) (w later : world) (k v : string) :
  API_CALL_CACHE later !! k = API_CALL_CACHE (snd (cache_put e k v w)) !! k ->
  (clock e (ticks later) - clock e (ticks w) < 60 * 60 * 1000000 ->
   fst (cache_get e k later) = Ret (Some v)) /\
  (60 * 60 * 1000000 <= clock e (ticks later) - clock e (ticks w) ->
   fst (cache_get e k later) = Ret None /\
   API_CALL_CACHE (snd (cache_get e k later)) = API_CALL_CACHE later /\
   API_CALL_CACHE (snd (cache_get e k later)) !! k =
     Some (v, clock e (ticks w))).
Proof.
  intros Hkept.
  rewrite cache_put_writes in Hkept. cbn [snd API_CALL_CACHE] in Hkept.
  rewrite lookup_insert_eq in Hkept.
  rewrite (cache_get_hit e k v _ later Hkept).
  cbn [fst snd API_CALL_CACHE]. unfold CACHE_DURATION.
  split; intros Hage.
  - apply Z.ltb_lt in Hage. rewrite Hage. reflexivity.
  - apply Z.ltb_ge in Hage. rewrite Hage. auto.
Qed.

(** Written at reading 0; read back thirty minutes later (a hit) and
    sixty minutes later (a miss). *)
Lemma cache_round_trip_witness :
  fst (cache_get demo "price_aapl"
         (snd (cache_put demo "price_aapl" "quoted" fresh)))
  = Ret (Some "quoted") /\
  fst (cache_get demo "price_aapl"
         (World (API_CALL_CACHE (snd (cache_put demo "price_aapl" "quoted" fresh)))
                2 []))
  = Ret None.
Proof.
  split.
  - apply (cache_round_trip demo fresh
             (snd (cache_put demo "price_aapl" "quoted" fresh))
             "price_aapl" "quoted");
      [reflexivity | vm_compute; reflexivity].
  - apply (cache_round_trip demo fresh
             (World (API_CALL_CACHE (snd (cache_put demo "price_aapl" "quoted" fresh)))
                    2 [])
             "price_aapl" "quoted");
      [reflexivity | vm_compute; discriminate].
Defined.

End CacheSpec.

(** ** The market-data client: guards and escapes *)
Module GuardSpec.
Import PyStr Py Api Sample.

Lemma nonempty_truthy (q : string) :
  q <> EmptyString ->
  (negb (truthy (VStr q)) || negb (is_str (VStr q)))%bool = false.
Proof. destruct q; [congruence | reflexivity]. Qed.

Lemma unset_cases (e : env) :
  ALPHAVANTAGE_API_KEY e = None \/ ALPHAVANTAGE_API_KEY e = Some EmptyString ->
  key_unset e = true.
Proof. unfold key_unset. intros [-> | ->]; reflexivity. Qed.

Lemma unknown_interval (i : string) :
  ~ In i INTERVALS -> known_interval (VStr i) = false.
Proof.
  intros Hout. unfold known_interval.
  destruct (existsb (fun s => eq_text s (VStr i)) INTERVALS) eqn:Hex; [|reflexivity].
  apply existsb_exists in Hex as (s & Hin & Heq).
  cbn [eq_text] in Heq. apply String.eqb_eq in Heq. subst s. contradiction.
Qed.

(** C6: with no credential in the environment, a non-empty text query
    gets the configuration message and the call leaves the world as it
    found it: nothing is logged (no resolver call, no request), the clock
    is not read and the cache is not touched. *)
Theorem unconfigured_returns_at_once
    (rt : runtime) (e : env) (q : string) (w : world) :
  q <> EmptyString ->
  ALPHAVANTAGE_API_KEY e = None \/ ALPHAVANTAGE_API_KEY e = Some EmptyString ->
  get_stock_price rt e (VStr q) w = (Ret MSG_KEY_MISSING, w).
Proof.
  intros Hq Hkey. unfold get_stock_price.
  rewrite (nonempty_truthy q Hq), (unset_cases e Hkey). reflexivity.
Qed.

Lemma unconfigured_returns_at_once_witness :
  get_stock_price rt (env_with None full_quote) (VStr "Apple") fresh
  = (Ret "⚠️ Alpha Vantage API key not configured. Please set ALPHAVANTAGE_API_KEY in .env",
     fresh).
Proof.
  apply (unconfigured_returns_at_once rt (env_with None full_quote) "Apple" fresh).
  - discriminate.
  - left. reflexivity.
Defined.

(** A fresh entry is served as it is: no resolver call, no request. *)
Lemma fresh_entry_served
    (rt : runtime) (e : env) (q v : string) (t : Z) (w : world) :
  q <> EmptyString ->
  key_unset e = false ->
  API_CALL_CACHE w !! ("price_" +:+ str_lower rt q) = Some (v, t) ->
  clock e (ticks w) - t < CACHE_DURATION ->
  get_stock_price rt e (VStr q) w =
    (Ret v, World (API_CALL_CACHE w) (S (ticks w)) (trace w)).
Proof.
  intros Hq Hkey Hentry Hage. unfold get_stock_price.
  rewrite (nonempty_truthy q Hq), Hkey. cbn [text_of].
  unfold bind. rewrite (CacheSpec.cache_get_hit e _ v t w Hentry).
  apply Z.ltb_lt in Hage. rewrite Hage. reflexivity.
Qed.

(** C8, as the code has it: an interval outside the five known ones is
    answered at once, with the world untouched; the query guard runs
    first, so an empty query gets the invalid-query message instead. *)
Theorem unknown_interval_returns_at_once
    (rt : runtime) (e : env) (q i : string) (w : world) :
  ~ In i INTERVALS ->
  get_intraday_data rt e (VStr q) (VStr i) w =
    (Ret (if is_empty q then MSG_INVALID_QUERY_SHORT else MSG_INVALID_INTERVAL),
     w).
Proof.
  intros Hout. unfold get_intraday_data. destruct q as [|c q].
  - reflexivity.
  - rewrite nonempty_truthy by discriminate.
    rewrite (unknown_interval i Hout). reflexivity.
Qed.

Lemma unknown_interval_returns_at_once_witness :
  get_intraday_data rt demo (VStr "Apple") (VStr "2min") fresh
  = (Ret "❌ Invalid interval. Choose from: 1min, 5min, 15min, 30min, 60min",
     fresh).
Proof.
  apply (unknown_interval_returns_at_once rt demo "Apple" "2min" fresh).
  vm_compute. intuition discriminate.
Defined.

(** C8, as stated, fails on the empty query. *)
Lemma unknown_interval_empty_query :
  ~ In "2min" INTERVALS /\
  fst (get_intraday_data rt demo (VStr "") (VStr "2min") fresh)
    = Ret MSG_INVALID_QUERY_SHORT /\
  fst (get_intraday_data rt demo (VStr "") (VStr "2min") fresh)
    <> Ret MSG_INVALID_INTERVAL.
Proof.
  split; [vm_compute; intuition discriminate|].
  split; [reflexivity | vm_compute; discriminate].
Qed.

(** What a [try] lets through is what its handler does not take, as long
    as the handlers only return. *)
Lemma try_except_escape {A : Type} (body : M A) (handler : pyexn -> option (M A))
    (w w' : world) (ex : pyexn) :
  (forall ex0 h, handler ex0 = Some h -> exists a, h = ret a) ->
  try_except body handler w = (Raise ex, w') ->
  body w = (Raise ex, w') /\ handler ex = None.
Proof.
  intros Hret. unfold try_except.
  destruct (body w) as [[a|ex0] w0]; [discriminate|].
  destruct (handler ex0) as [h|] eqn:Hh.
  - destruct (Hret _ _ Hh) as [a ->]. discriminate.
  - intros [= -> ->]. auto.
Qed.

Lemma price_handler_returns (ex0 : pyexn) (h : M string) :
  price_handler ex0 = Some h -> exists a, h = ret a.
Proof.
  unfold price_handler. destruct (exn_cls ex0); intros [= <-]; eauto.
Qed.

(** Whatever escapes [get_stock_price] is none of the four classes its
    [except] clauses name. *)
Lemma price_escape_class (rt : runtime) (e : env) (query : value)
    (w w' : world) (ex : pyexn) :
  get_stock_price rt e query w = (Raise ex, w') ->
  exn_cls ex <> Timeout /\ exn_cls ex <> RequestException /\
  exn_cls ex <> KeyError /\ exn_cls ex <> ValueError.
Proof.
  unfold get_stock_price.
  destruct (negb (truthy query) || negb (is_str query))%bool; [discriminate|].
  destruct (key_unset e); [discriminate|].
  unfold bind at 1.
  destruct (cache_get e _ w) as [[[r|]|ex0] w0] eqn:Hget.
  - discriminate.
  - unfold bind, resolve.
    destruct (_get_symbol rt query) as [symbol|]; [|discriminate].
    destruct (is_empty symbol); [discriminate|].
    intros Hesc.
    apply try_except_escape in Hesc as [_ Hnone];
      [|exact price_handler_returns].
    unfold price_handler in Hnone.
    destruct (exn_cls ex); try discriminate; repeat split; discriminate.
  - destruct (CacheSpec.cache_get_reads e ("price_" +:+ str_lower rt (text_of query)) w)
      as (o & n & Heq & _).
    rewrite Heq in Hget. discriminate.
Qed.

(** The sibling operation catches every exception: it always returns. *)
Lemma intraday_always_returns (rt : runtime) (e : env) (query interval : value)
    (w : world) :
  exists text w', get_intraday_data rt e query interval w = (Ret text, w').
Proof.
  unfold get_intraday_data.
  destruct (negb (truthy query) || negb (is_str query))%bool; [eexists _, _; reflexivity|].
  destruct (negb (known_interval interval)); [eexists _, _; reflexivity|].
  destruct (key_unset e); [eexists _, _; reflexivity|].
  unfold bind, resolve.
  destruct (_get_symbol rt query) as [symbol|]; [|eexists _, _; reflexivity].
  destruct (is_empty symbol); [eexists _, _; reflexivity|].
  unfold try_except.
  destruct (intraday_attempt rt e symbol (text_of interval) _) as [[a|ex] w0];
    eexists _, _; reflexivity.
Qed.

(** C2, at the failing input: the service answers with a quote whose
    price is [null]; [float(None)] raises [TypeError], which no [except]
    clause of [get_stock_price] names, and the call raises. *)
Theorem null_price_raises (rt : runtime) :
  fst (get_stock_price rt (env_with (Some "demo") null_quote) (VStr "AAPL") fresh)
  = Raise (Exn TypeError (Py.fault_text rt (BadFloatArg VNone))).
Proof.
  unfold get_stock_price, resolve. cbn [text_of].
  rewrite (lower_ascii rt "AAPL" eq_refl).
  rewrite (ResolverSpec.get_symbol_ascii rt "AAPL" eq_refl).
  vm_compute. reflexivity.
Qed.

End GuardSpec.

(** ** The market-data client: a decoded quote *)
Module QuoteSpec.
Import PyStr Py Api Notions.

Lemma ticker_pass_row (rt : runtime) (table : list (string * string))
    (qn t : string) :
  ticker_pass rt table qn = Some t -> exists a, In (a, t) table.
Proof.
  induction table as [|[a0 t0] rest IH]; [discriminate|].
  cbn [ticker_pass]. destruct (String.eqb (str_lower rt t0) qn).
  - intros [= ->]. exists a0. left. reflexivity.
  - intros H. destruct (IH H) as [a Ha]. exists a. right. exact Ha.
Qed.

Lemma name_pass_row (table : list (string * string)) (qn t : string) :
  name_pass table qn = Some t -> exists a, In (a, t) table.
Proof.
  induction table as [|[a0 t0] rest IH]; [discriminate|].
  cbn [name_pass]. destruct (contains a0 qn).
  - intros [= ->]. exists a0. left. reflexivity.
  - intros H. destruct (IH H) as [a Ha]. exists a. right. exact Ha.
Qed.

(** The resolver only returns tickers of the table, none of them empty. *)
Lemma resolved_nonempty (rt : runtime) (query : value) (t : string) :
  _get_symbol rt query = Some t -> is_empty t = false.
Proof.
  unfold _get_symbol, lookup_symbol.
  destruct (negb (truthy query) || negb (is_str query))%bool; [discriminate|].
  destruct (ticker_pass rt COMPANY_SYMBOLS _) as [t0|] eqn:Hpass.
  - intros [= ->]. destruct (ticker_pass_row _ _ _ _ Hpass) as [a Ha].
    apply (ResolverSpec.row_ok_at a t Ha).
  - intros Hname. destruct (name_pass_row _ _ _ Hname) as [a Ha].
    apply (ResolverSpec.row_ok_at a t Ha).
Qed.

Lemma requests_sent_log_resolve (query : value) (w : world) :
  requests_sent (log (Resolve query) w) = requests_sent w.
Proof.
  unfold requests_sent, log. cbn [trace].
  rewrite filter_app. cbn. rewrite app_nil_r. reflexivity.
Qed.

Section Quote.
Variable rt : runtime.
Variable e : env.
Variable w : world.
Variables q T : string.
Variables data items : list (string * value).

Hypothesis Hq : q <> EmptyString.
Hypothesis Hkey : key_unset e = false.
Hypothesis Hmiss : fst (cache_get e ("price_" +:+ str_lower rt q) w) = Ret None.
Hypothesis Hsym : _get_symbol rt (VStr q) = Some T.
Hypothesis Hnet :
  network e (requests_sent w) (quote_url T (key_text e)) = Payload (VDict data).
Hypothesis Hok : assoc "Error Message" data = None.
Hypothesis Hquote :
  from_option id (VDict []) (assoc "Global Quote" data) = VDict items.

(** Runs the call up to the inspection of the quote object. *)
Ltac reach_quote :=
  unfold get_stock_price, arrived;
  rewrite (GuardSpec.nonempty_truthy q Hq), Hkey; cbn [text_of];
  let o := fresh "o" in
  let n := fresh "n" in
  let Hget := fresh "Hget" in
  let Hm := fresh "Hm" in
  destruct (CacheSpec.cache_get_reads e ("price_" +:+ str_lower rt q) w)
    as (o & n & Hget & _);
  pose proof Hmiss as Hm; rewrite Hget in Hm; cbn [fst] in Hm;
  injection Hm as ->;
  cbv beta delta [bind]; rewrite Hget; cbv beta iota delta [resolve];
  rewrite Hsym, (resolved_nonempty _ _ _ Hsym);
  cbv beta iota delta [try_except price_attempt bind http_get];
  rewrite requests_sent_log_resolve;
  change (requests_sent (World (API_CALL_CACHE w) n (trace w)))
    with (requests_sent w);
  rewrite Hnet; cbv beta iota delta [lift py_in py_get]; rewrite Hok, Hquote;
  cbv beta iota.

Lemma quote_without_price :
  assoc "05. price" items = None ->
  get_stock_price rt e (VStr q) w = (Ret (msg_no_data T), arrived rt e w q T).
Proof.
  intros Hnone. reach_quote. rewrite Hnone.
  destruct (negb (truthy (VDict items)));
    cbv beta iota delta [ret negb log snd ticks trace API_CALL_CACHE];
    rewrite <- app_assoc; reflexivity.
Qed.

(** A quote with a usable price yields the formatted line, with "N/A"
    standing for a change or change-percent that is not there, and the
    line is stored under the key of the query. *)
Lemma quote_with_price (raw : value) (p : float) (s : string) :
  assoc "05. price" items = Some raw ->
  py_float rt raw = Ret p ->
  from_option id (VStr "N/A") (assoc "10. change percent" items) = VStr s ->
  get_stock_price rt e (VStr q) w =
  (Ret (price_line (if startswith "-" (rstrip "%" s) then DOWN else UP) T
          (format_2f rt p)
          (py_str rt (from_option id (VStr "N/A") (assoc "09. change" items)))
          (rstrip "%" s)),
   World
     (<["price_" +:+ str_lower rt q :=
          (price_line (if startswith "-" (rstrip "%" s) then DOWN else UP) T
             (format_2f rt p)
             (py_str rt (from_option id (VStr "N/A") (assoc "09. change" items)))
             (rstrip "%" s),
           clock e (ticks (arrived rt e w q T)))]> (API_CALL_CACHE w))
     (S (ticks (arrived rt e w q T)))
     (trace (arrived rt e w q T))).
Proof.
  intros Hraw Hp Hs. reach_quote. rewrite Hraw.
  assert (Htruthy : truthy (VDict items) = true).
  { destruct items; [discriminate | reflexivity]. }
  rewrite Htruthy. cbv beta iota delta [negb ret py_getitem].
  rewrite Hraw, Hp, Hs.
  cbv beta iota zeta delta
    [py_rstrip cache_put bind now ret log snd ticks trace API_CALL_CACHE].
  rewrite <- app_assoc.
  destruct (startswith "-" (rstrip "%" s)); reflexivity.
Qed.

(** C1: a validated query that resolves to [T] and is answered by a
    well-formed quote with price, change and change-percent [s] returns
    the line made of the direction mark, [T], the price with two
    decimals, the change and [cp], where [cp] is [s] without its trailing
    percent signs; the mark is the falling one exactly when [cp] starts
    with a minus sign, the rising one otherwise.  Before returning, the
    line is written into the cache under "price_" followed by the
    lower-cased query. *)
Theorem priced_quote_formatted_and_cached
    (raw : value) (p : float) (c s : string) :
  assoc "05. price" items = Some raw ->
  py_float rt raw = Ret p ->
  assoc "09. change" items = Some (VStr c) ->
  assoc "10. change percent" items = Some (VStr s) ->
  exists mark cp tail,
    s = cp +:+ tail /\
    (forall x, In x (list_ascii_of_string tail) -> x = "%"%char) /\
    (forall u, cp <> u +:+ "%") /\
    ((exists rest, cp = "-" +:+ rest) -> mark = "📉") /\
    (~ (exists rest, cp = "-" +:+ rest) -> mark = "📈") /\
    fst (get_stock_price rt e (VStr q) w) =
      Ret (mark +:+ " " +:+ T +:+ " is trading at $" +:+ format_2f rt p +:+
           ", change: " +:+ c +:+ " (" +:+ cp +:+ "%)") /\
    API_CALL_CACHE (snd (get_stock_price rt e (VStr q) w)) =
      <["price_" +:+ str_lower rt q :=
          (mark +:+ " " +:+ T +:+ " is trading at $" +:+ format_2f rt p +:+
           ", change: " +:+ c +:+ " (" +:+ cp +:+ "%)",
           clock e (ticks (arrived rt e w q T)))]> (API_CALL_CACHE w) /\
    trace (snd (get_stock_price rt e (VStr q) w)) =
      trace w ++ [Resolve (VStr q); HttpGet (quote_url T (key_text e))].
Proof.
  intros Hraw Hp Hc Hs.
  rewrite (quote_with_price raw p s Hraw Hp) by (rewrite Hs; reflexivity).
  rewrite Hc. cbn [fst snd API_CALL_CACHE trace from_option id py_str].
  destruct (PyStrFacts.rstrip_spec "%" s) as [(tail & Hsplit & Htail) Hclean].
  exists (if startswith "-" (rstrip "%" s) then DOWN else UP), (rstrip "%" s), tail.
  split; [exact Hsplit|].
  split.
  { intros x Hx. specialize (Htail x Hx). cbn [mem_char] in Htail.
    rewrite orb_false_r in Htail. apply Ascii.eqb_eq in Htail. exact Htail. }
  split.
  { intros u Hu. specialize (Hclean u "%"%char Hu). discriminate Hclean. }
  split.
  { intros Hminus. apply PyStrFacts.startswith_spec in Hminus.
    rewrite Hminus. reflexivity. }
  split.
  { intros Hplus. destruct (startswith "-" (rstrip "%" s)) eqn:Hstart;
      [|reflexivity].
    exfalso. apply Hplus. apply PyStrFacts.startswith_spec. exact Hstart. }
  unfold price_line. auto.
Qed.

(** C7, as the code has it: without a price field the quote is reported
    as unavailable for the resolved ticker; with a usable price, a
    missing change or change-percent is written "N/A" in the formatted
    line. *)
Theorem missing_price_is_unavailable :
  (assoc "05. price" items = None ->
   get_stock_price rt e (VStr q) w = (Ret (msg_no_data T), arrived rt e w q T)) /\
  (forall raw p s,
     assoc "05. price" items = Some raw ->
     py_float rt raw = Ret p ->
     from_option id (VStr "N/A") (assoc "10. change percent" items) = VStr s ->
     fst (get_stock_price rt e (VStr q) w) =
       Ret (price_line (if startswith "-" (rstrip "%" s) then DOWN else UP) T
              (format_2f rt p)
              (py_str rt (from_option id (VStr "N/A") (assoc "09. change" items)))
              (rstrip "%" s))).
Proof.
  split.
  - exact quote_without_price.
  - intros raw p s Hraw Hp Hs.
    rewrite (quote_with_price raw p s Hraw Hp Hs). reflexivity.
Qed.

End Quote.

(** A falling quote: the change-percent "-1.26%" loses its percent sign
    and, starting with a minus sign, gives the falling mark. *)
Lemma priced_quote_formatted_and_cached_witness :
  exists mark cp tail,
    "-1.26%" = cp +:+ tail /\
    mark = "📉" /\
    fst (get_stock_price Sample.rt
           (Sample.env_with (Some "demo") Sample.falling_quote)
           (VStr "AAPL") Sample.fresh) =
      Ret (mark +:+ " AAPL is trading at $98.25, change: -1.25 (" +:+ cp +:+ "%)") /\
    API_CALL_CACHE
      (snd (get_stock_price Sample.rt
              (Sample.env_with (Some "demo") Sample.falling_quote)
              (VStr "AAPL") Sample.fresh)) !! "price_aapl" =
      Some (mark +:+ " AAPL is trading at $98.25, change: -1.25 (" +:+ cp +:+ "%)", 0).
Proof.
  destruct (priced_quote_formatted_and_cached
              Sample.rt (Sample.env_with (Some "demo") Sample.falling_quote)
              Sample.fresh "AAPL" "AAPL"
              [("Global Quote",
                VDict [("05. price", VStr "98.25"); ("09. change", VStr "-1.25");
                       ("10. change percent", VStr "-1.26%")])]
              [("05. price", VStr "98.25"); ("09. change", VStr "-1.25");
               ("10. change percent", VStr "-1.26%")]
              ltac:(discriminate) ltac:(reflexivity) ltac:(reflexivity)
              ltac:(reflexivity) ltac:(reflexivity) ltac:(reflexivity)
              ltac:(reflexivity)
              (VStr "98.25") 98.25%float "-1.25" "-1.26%"
              ltac:(reflexivity) ltac:(vm_compute; reflexivity)
              ltac:(reflexivity) ltac:(reflexivity))
    as (mark & cp & tail & Hs & Htail & _ & Hdown & _ & Hline & Hcache & _).
  exists mark, cp, tail. split; [exact Hs|].
  split.
  { apply Hdown. destruct cp as [|x cp].
    - exfalso. rewrite PyStrFacts.app_nil in Hs. subst tail.
      specialize (Htail "-"%char ltac:(left; reflexivity)). discriminate Htail.
    - rewrite PyStrFacts.app_cons in Hs. injection Hs as <- _.
      exists cp. reflexivity. }
  split.
  - rewrite Hline. vm_compute. reflexivity.
  - rewrite Hcache. vm_compute. reflexivity.
Defined.

Lemma missing_price_is_unavailable_witness :
  fst (get_stock_price Sample.rt (Sample.env_with (Some "demo") Sample.priceless_quote)
         (VStr "AAPL") Sample.fresh)
  = Ret "⚠️ Could not retrieve stock data for AAPL. Please try again.".
Proof.
  destruct (missing_price_is_unavailable
              Sample.rt (Sample.env_with (Some "demo") Sample.priceless_quote)
              Sample.fresh "AAPL" "AAPL"
              [("Global Quote", VDict [("09. change", VStr "1.20")])]
              [("09. change", VStr "1.20")]
              ltac:(discriminate) ltac:(reflexivity) ltac:(reflexivity)
              ltac:(reflexivity) ltac:(reflexivity) ltac:(reflexivity)
              ltac:(reflexivity))
    as [Hnone _].
  rewrite Hnone by reflexivity. reflexivity.
Defined.

(** C7, as stated, fails when only the change and the change-percent are
    missing: the call returns a formatted line. *)
Lemma missing_change_still_priced :
  assoc "09. change" [("05. price", VStr "150.25")] = None /\
  assoc "10. change percent" [("05. price", VStr "150.25")] = None /\
  fst (get_stock_price Sample.rt (Sample.env_with (Some "demo") Sample.bare_quote)
         (VStr "AAPL") Sample.fresh)
    = Ret "📈 AAPL is trading at $150.25, change: N/A (N/A%)" /\
  fst (get_stock_price Sample.rt (Sample.env_with (Some "demo") Sample.bare_quote)
         (VStr "AAPL") Sample.fresh)
    <> Ret (msg_no_data "AAPL").
Proof.
  split; [reflexivity|]. split; [reflexivity|].
  split; [vm_compute; reflexivity | vm_compute; discriminate].
Qed.

End QuoteSpec.

(** ** The conversation memory *)
Module MemorySpec.
Import PyStr Py Memory Notions.

Lemma last_n_length {A : Type} (n : nat) (l : list A) :
  (length (last_n n l) <= n)%nat.
Proof. unfold last_n. rewrite length_skipn. lia. Qed.

Lemma last_n_short {A : Type} (n : nat) (l : list A) :
  (length l <= n)%nat -> last_n n l = l.
Proof.
  intros Hle. unfold last_n.
  replace (length l - n)%nat with 0%nat by lia. reflexivity.
Qed.

(** Trimming, appending and trimming again is appending and trimming. *)
Lemma last_n_snoc {A : Type} (n : nat) (l : list A) (x : A) :
  (1 <= n)%nat -> last_n n (last_n n l ++ [x]) = last_n n (l ++ [x]).
Proof.
  intros Hn. unfold last_n.
  rewrite !length_app, length_skipn. cbn [length].
  destruct (Nat.le_gt_cases (length l) n) as [Hle|Hgt].
  - replace (length l - n)%nat with 0%nat by lia.
    cbn [skipn]. rewrite Nat.sub_0_r. reflexivity.
  - replace (length l - (length l - n) + 1 - n)%nat with 1%nat by lia.
    replace (length l + 1 - n)%nat with (S (length l - n)) by lia.
    rewrite (skipn_app (S (length l - n)) l [x]).
    replace (S (length l - n) - length l)%nat with 0%nat by lia.
    rewrite (skipn_app 1 (skipn (length l - n) l) [x]).
    rewrite length_skipn.
    replace (1 - (length l - (length l - n)))%nat with 0%nat by lia.
    f_equal. rewrite skipn_skipn. reflexivity.
Qed.

Lemma last_n_app_trim {A : Type} (n : nat) (l ys : list A) :
  (1 <= n)%nat -> last_n n (last_n n l ++ ys) = last_n n (l ++ ys).
Proof.
  intros Hn. induction ys as [|y ys IH] using rev_ind.
  - rewrite !app_nil_r. apply last_n_short, last_n_length.
  - rewrite !app_assoc.
    rewrite <- (last_n_snoc n (last_n n l ++ ys)) by exact Hn.
    rewrite IH. apply last_n_snoc. exact Hn.
Qed.

Lemma add_text (rt : runtime) (u b : string) (mem : list (string * string)) :
  u <> EmptyString -> b <> EmptyString ->
  add_to_memory rt (VStr u) (VStr b) mem =
    (Ret tt, last_n MAX_MEMORY (mem ++ [stored rt (u, b)])).
Proof.
  intros Hu Hb. unfold add_to_memory.
  destruct u as [|cu u]; [congruence|]. destruct b as [|cb b]; [congruence|].
  cbn [truthy is_str is_empty negb orb text_of].
  unfold stored. cbn [fst snd].
  destruct (Nat.ltb_spec MAX_MEMORY
              (length (mem ++ [(str_strip rt (String cu u), str_strip rt (String cb b))])))
    as [Hlt|Hge].
  - reflexivity.
  - rewrite last_n_short by exact Hge. reflexivity.
Qed.

Lemma add_all_texts (rt : runtime) (ps : list (string * string))
    (mem : list (string * string)) :
  (length mem <= MAX_MEMORY)%nat ->
  Forall nonempty_pair ps ->
  add_all rt (map call_of ps) mem =
    (Ret tt, last_n MAX_MEMORY (mem ++ map (stored rt) ps)).
Proof.
  intros Hlen Hall. revert mem Hlen.
  induction Hall as [|[u b] ps [Hu Hb] _ IH]; intros mem Hlen.
  - cbn [map add_all]. rewrite app_nil_r, last_n_short by exact Hlen. reflexivity.
  - cbn [map add_all call_of fst snd].
    rewrite (add_text rt u b mem Hu Hb).
    rewrite IH by apply last_n_length.
    rewrite (last_n_app_trim MAX_MEMORY) by (unfold MAX_MEMORY; lia).
    rewrite <- app_assoc. reflexivity.
Qed.

Lemma empty_memory_renders_empty : get_recent_memory [] = EmptyString.
Proof. reflexivity. Qed.

(** C9: valid appends keep the buffer within ten pairs; what is kept is
    the tail of what was added, in the order of addition, each text as
    the append stores it (passed through [strip]).  Thirteen appends to
    an empty buffer leave the last ten, the three oldest being dropped;
    the ten are the texts as passed whenever [strip] leaves them as they
    are. *)
Theorem memory_keeps_last_ten
    (rt : runtime) (mem : list (string * string)) (ps : list (string * string)) :
  (length mem <= 10)%nat ->
  Forall nonempty_pair ps ->
  fst (add_all rt (map call_of ps) mem) = Ret tt /\
  (length (snd (add_all rt (map call_of ps) mem)) <= 10)%nat /\
  snd (add_all rt (map call_of ps) mem) = last_n 10 (mem ++ map (stored rt) ps) /\
  (mem = [] -> length ps = 13%nat ->
   snd (add_all rt (map call_of ps) mem) = skipn 3 (map (stored rt) ps)) /\
  (mem = [] -> length ps = 13%nat -> Forall (fun p => stored rt p = p) ps ->
   snd (add_all rt (map call_of ps) mem) = skipn 3 ps).
Proof.
  intros Hlen Hall.
  rewrite (add_all_texts rt ps mem Hlen Hall). cbn [fst snd].
  split; [reflexivity|]. split; [apply last_n_length|]. split; [reflexivity|].
  assert (Hdrop : mem = [] -> length ps = 13%nat ->
                  last_n MAX_MEMORY (mem ++ map (stored rt) ps)
                  = skipn 3 (map (stored rt) ps)).
  { intros -> H13. unfold last_n, MAX_MEMORY. cbn [app].
    rewrite length_map, H13. reflexivity. }
  split; [exact Hdrop|].
  intros Hmem H13 Hfix. rewrite (Hdrop Hmem H13).
  f_equal. clear - Hfix.
  induction Hfix as [|p ps' Hp _ IH]; [reflexivity|].
  cbn [map]. rewrite Hp, IH. reflexivity.
Qed.

Lemma memory_keeps_last_ten_witness :
  snd (add_all Sample.rt (map call_of Sample.thirteen) []) =
    [("u4", "b4"); ("u5", "b5"); ("u6", "b6"); ("u7", "b7"); ("u8", "b8");
     ("u9", "b9"); ("u10", "b10"); ("u11", "b11"); ("u12", "b12");
     ("u13", "b13")].
Proof.
  assert (Hvalid : Forall nonempty_pair Sample.thirteen).
  { unfold Sample.thirteen.
    repeat (constructor; [split; discriminate|]). constructor. }
  destruct (memory_keeps_last_ten Sample.rt [] Sample.thirteen
              ltac:(cbn; lia) Hvalid) as (_ & _ & _ & Hdrop & _).
  rewrite Hdrop by reflexivity. vm_compute. reflexivity.
Defined.

Lemma rejected_guard (v : value) :
  rejected v <-> (negb (truthy v) || negb (is_str v))%bool = true.
Proof.
  unfold rejected. split.
  - intros [-> | [-> | Hnot]]; [reflexivity | reflexivity |].
    destruct v as [|b|n|x|s|l|l]; cbn [is_str negb];
      rewrite ?orb_true_r; try reflexivity.
    exfalso. apply (Hnot s). reflexivity.
  - destruct v as [|b|n|x|s|l|l]; intros Hguard;
      try (right; right; intros s0; discriminate).
    destruct s as [|c s]; [left; reflexivity | discriminate Hguard].
Qed.

Lemma last_n_keeps_last {A : Type} (n : nat) (l : list A) (x : A) :
  (1 <= n)%nat -> exists kept, last_n n (l ++ [x]) = kept ++ [x].
Proof.
  intros Hn. unfold last_n. rewrite length_app. cbn [length].
  exists (skipn (length l + 1 - n) l).
  rewrite skipn_app.
  replace (length l + 1 - n - length l)%nat with 0%nat by lia. reflexivity.
Qed.

(** White space of the ASCII range is white space for every runtime. *)
Lemma strip_blank_any (rt : runtime) (s : string) :
  blank s -> str_strip rt s = EmptyString.
Proof.
  intros Hb. rewrite (strip_ascii rt s (PyStrFacts.blank_ascii s Hb)).
  apply PyStrFacts.strip_blank. exact Hb.
Qed.

(** C10: the append raises [ValueError] exactly when one of its arguments
    is the empty text, [None] or not text, and then leaves the buffer as
    it was.  Every non-empty text passes the guard, which runs before
    [strip], and is kept as [strip] returns it; so a text that [strip]
    empties (a text of white space only, on either side or on both)
    puts an empty text into the last pair of the buffer.  Texts of ASCII
    white space are such texts. *)
Theorem append_rejects_exactly
    (rt : runtime) (u b : value) (mem : list (string * string)) :
  ((exists ex, fst (add_to_memory rt u b mem) = Raise ex) <->
   rejected u \/ rejected b) /\
  (forall ex, fst (add_to_memory rt u b mem) = Raise ex ->
     exn_cls ex = ValueError /\ snd (add_to_memory rt u b mem) = mem) /\
  (forall s t, s <> EmptyString -> t <> EmptyString ->
     add_to_memory rt (VStr s) (VStr t) mem =
       (Ret tt, last_n 10 (mem ++ [(str_strip rt s, str_strip rt t)]))) /\
  (forall s t, s <> EmptyString -> t <> EmptyString ->
     str_strip rt s = EmptyString \/ str_strip rt t = EmptyString ->
     fst (add_to_memory rt (VStr s) (VStr t) mem) = Ret tt /\
     exists kept user bot,
       snd (add_to_memory rt (VStr s) (VStr t) mem) = kept ++ [(user, bot)] /\
       (user = EmptyString \/ bot = EmptyString)) /\
  (forall s, blank s -> str_strip rt s = EmptyString).
Proof.
  split; [|split; [|split; [|split]]].
  - rewrite !rejected_guard. unfold add_to_memory.
    destruct (negb (truthy u) || negb (is_str u))%bool;
      [split; [auto | intros _; eexists; reflexivity]|].
    destruct (negb (truthy b) || negb (is_str b))%bool;
      [split; [auto | intros _; eexists; reflexivity]|].
    cbn [fst]. split; [intros [ex Hex]; discriminate | intros [H|H]; discriminate].
  - intros ex. unfold add_to_memory.
    destruct (negb (truthy u) || negb (is_str u))%bool;
      [intros [= <-]; split; reflexivity|].
    destruct (negb (truthy b) || negb (is_str b))%bool;
      [intros [= <-]; split; reflexivity|].
    discriminate.
  - intros s t Hs Ht. rewrite (add_text rt s t mem Hs Ht). reflexivity.
  - intros s t Hs Ht Hempty. rewrite (add_text rt s t mem Hs Ht).
    cbn [fst snd]. split; [reflexivity|].
    destruct (last_n_keeps_last MAX_MEMORY mem (stored rt (s, t))) as [kept Hkept];
      [unfold MAX_MEMORY; lia|].
    exists kept, (str_strip rt s), (str_strip rt t).
    split; [exact Hkept | exact Hempty].
  - intros s Hb. apply strip_blank_any. exact Hb.
Qed.

(** Blanks on one side only, a TAB and a blank on both sides, and
    [None]. *)
Lemma append_rejects_exactly_witness :
  add_to_memory Sample.rt (VStr "   ") (VStr "ok") [] =
    (Ret tt, [(EmptyString, "ok")]) /\
  add_to_memory Sample.rt (VStr "   ") (VStr (String "009" " ")) [] =
    (Ret tt, [(EmptyString, EmptyString)]) /\
  (exists ex, fst (add_to_memory Sample.rt VNone (VStr "hello") []) = Raise ex).
Proof.
  destruct (append_rejects_exactly Sample.rt (VStr "   ") (VStr "ok") [])
    as (_ & _ & Hkeep & _ & _).
  destruct (append_rejects_exactly Sample.rt VNone (VStr "hello") [])
    as (Hiff & _ & _).
  split; [|split].
  - rewrite Hkeep; [reflexivity | discriminate | discriminate].
  - rewrite Hkeep; [reflexivity | discriminate | discriminate].
  - apply Hiff. left. right. left. reflexivity.
Defined.

End MemorySpec.
(** ** More on the string methods *)
Module PyStrMore.
Import PyStr Notions PyStrFacts.

Lemma lower_app (s t : string) : lower (s +:+ t) = lower s +:+ lower t.
Proof.
  induction s as [|c s IH]; [reflexivity|].
  rewrite app_cons. cbn [lower]. rewrite IH, app_cons. reflexivity.
Qed.

Lemma lower_char_space (c : ascii) : is_space (lower_char c) = is_space c.
Proof. destruct c as [[] [] [] [] [] [] [] []]; reflexivity. Qed.

Lemma upper_char_space (c : ascii) : is_space (upper_char c) = is_space c.
Proof. destruct c as [[] [] [] [] [] [] [] []]; reflexivity. Qed.

Lemma blank_lower (s : string) : blank s -> blank (lower s).
Proof.
  unfold blank. induction s as [|c s IH]; intros Hall d Hd; [destruct Hd|].
  cbn in Hd. destruct Hd as [<- | Hd].
  - rewrite lower_char_space. apply Hall. left. reflexivity.
  - apply IH; [|exact Hd]. intros d' Hd'. apply Hall. right. exact Hd'.
Qed.

Lemma lstrip_blank_app (b s : string) :
  blank b -> lstrip_by is_space (b +:+ s) = lstrip_by is_space s.
Proof.
  unfold blank. induction b as [|c b IH]; intros Hall; [reflexivity|].
  rewrite app_cons. cbn [lstrip_by].
  rewrite (Hall c) by (left; reflexivity).
  apply IH. intros d Hd. apply Hall. right. exact Hd.
Qed.

Lemma rstrip_blank (b : string) : blank b -> rstrip_by is_space b = EmptyString.
Proof.
  unfold blank. induction b as [|c b IH]; intros Hall; [reflexivity|].
  cbn [rstrip_by]. rewrite IH by (intros d Hd; apply Hall; right; exact Hd).
  rewrite (Hall c) by (left; reflexivity). reflexivity.
Qed.

Lemma rstrip_app_blank (s b : string) :
  blank b -> rstrip_by is_space (s +:+ b) = rstrip_by is_space s.
Proof.
  intros Hb. induction s as [|c s IH].
  - rewrite app_nil. apply rstrip_blank. exact Hb.
  - rewrite app_cons. cbn [rstrip_by]. rewrite IH. reflexivity.
Qed.

Lemma strip_app_blank (s b : string) : blank b -> strip (s +:+ b) = strip s.
Proof.
  intros Hb. unfold strip. induction s as [|c s IH].
  - rewrite app_nil. rewrite (lstrip_all is_space b Hb). reflexivity.
  - rewrite app_cons. cbn [lstrip_by]. destruct (is_space c); [exact IH|].
    rewrite <- app_cons. apply rstrip_app_blank. exact Hb.
Qed.

(** White space around a text does not survive [strip]. *)
Lemma strip_padded (b1 s b2 : string) :
  blank b1 -> blank b2 -> strip (b1 +:+ s +:+ b2) = strip s.
Proof.
  intros H1 H2. unfold strip at 1. rewrite (lstrip_blank_app b1 _ H1).
  fold (strip (s +:+ b2)). apply strip_app_blank. exact H2.
Qed.

Lemma app_empty (s t : string) : s +:+ t = EmptyString -> s = EmptyString.
Proof. destruct s; [reflexivity | discriminate]. Qed.

End PyStrMore.

(** ** More on the symbol resolver *)
Module ResolverMore.
Import PyStr Py Api Notions PyStrFacts PyStrMore.

(** X1: whatever the resolver returns is the ticker of some row of the
    table, and is not the empty text; this holds for any object passed as
    query. *)
Theorem resolved_is_listed (rt : runtime) (query : value) (t : string) :
  _get_symbol rt query = Some t ->
  (exists a, In (a, t) COMPANY_SYMBOLS) /\ t <> EmptyString.
Proof.
  intros Hres. pose proof (QuoteSpec.resolved_nonempty rt query t Hres) as Hne.
  split; [|intros ->; discriminate].
  unfold _get_symbol, lookup_symbol in Hres.
  destruct (negb (truthy query) || negb (is_str query))%bool; [discriminate|].
  destruct (ticker_pass rt COMPANY_SYMBOLS _) as [t0|] eqn:Hpass.
  - injection Hres as ->. exact (QuoteSpec.ticker_pass_row _ _ _ _ Hpass).
  - exact (QuoteSpec.name_pass_row _ _ _ Hres).
Qed.

Lemma resolved_is_listed_witness :
  (exists a, In (a, "TSLA") COMPANY_SYMBOLS) /\ "TSLA" <> EmptyString.
Proof.
  apply (resolved_is_listed Sample.rt (VStr "is Tesla up today?") "TSLA").
  vm_compute. reflexivity.
Defined.



(** X3: a non-empty query whose normal form contains an alias of the
    table anywhere, even inside a word, always resolves to a ticker. *)
Theorem alias_inside_resolves (rt : runtime) (q a t : string) :
  q <> EmptyString ->
  In (a, t) COMPANY_SYMBOLS ->
  substring a (str_strip rt (str_lower rt q)) ->
  exists t', _get_symbol rt (VStr q) = Some t'.
Proof.
  intros Hq Hin Hsub. rewrite ResolverSpec.get_symbol_text.
  destruct q as [|c q]; [congruence|]. cbn [is_empty].
  unfold lookup_symbol.
  destruct (ticker_pass rt COMPANY_SYMBOLS _) as [t0|]; [eauto|].
  destruct (ResolverSpec.name_pass_first COMPANY_SYMBOLS
              (str_strip rt (str_lower rt (String c q))))
    as [(pre & a1 & t1 & post & _ & _ & _ & Hres) | [Hall _]].
  - eauto.
  - apply contains_substring in Hsub. rewrite (Hall a t Hin) in Hsub.
    discriminate.
Qed.

Lemma alias_inside_resolves_witness :
  exists t', _get_symbol Sample.rt (VStr "pineapples") = Some t'.
Proof.
  apply (alias_inside_resolves Sample.rt "pineapples" "apple" "AAPL").
  - discriminate.
  - unfold COMPANY_SYMBOLS. right. left. reflexivity.
  - exists "pine", "s". reflexivity.
Defined.

(** X4: for a query of ASCII characters, the resolver does not see the
    case of the letters A to Z, a to z, nor ASCII white space put before
    and after the query. *)
Theorem resolution_ignores_case_and_padding
    (rt : runtime) (q q' b1 b2 : string) :
  q <> EmptyString ->
  is_ascii q = true ->
  case_variant q' q ->
  blank b1 -> blank b2 ->
  _get_symbol rt (VStr (b1 +:+ q' +:+ b2)) = _get_symbol rt (VStr q).
Proof.
  intros Hq Hascii Hcase H1 H2.
  rewrite (ResolverSpec.get_symbol_ascii rt q Hascii).
  rewrite (ResolverSpec.get_symbol_ascii rt (b1 +:+ q' +:+ b2)).
  2:{ rewrite !is_ascii_app, (blank_ascii b1 H1), (blank_ascii b2 H2).
      rewrite (case_variant_ascii q' q Hcase), Hascii. reflexivity. }
  rewrite !ResolverSpec.get_symbol_text.
  assert (Hq' : is_empty q' = false).
  { rewrite (case_variant_empty q' q Hcase). destruct q; [congruence|reflexivity]. }
  assert (Hpad : is_empty (b1 +:+ q' +:+ b2) = false).
  { destruct (b1 +:+ q' +:+ b2) eqn:Heq; [|reflexivity].
    destruct b1; [|discriminate]. rewrite app_nil in Heq.
    apply app_empty in Heq. subst q'. discriminate. }
  rewrite Hpad. destruct q as [|c q]; [congruence|]. cbn [is_empty].
  unfold lookup_symbol. cbn [str_lower str_strip Sample.rt].
  rewrite !lower_app.
  rewrite (strip_padded _ _ _ (blank_lower b1 H1) (blank_lower b2 H2)).
  rewrite (case_variant_lower q' _ Hcase). reflexivity.
Qed.

Lemma resolution_ignores_case_and_padding_witness :
  _get_symbol Sample.rt (VStr "  nVidia ") = _get_symbol Sample.rt (VStr "nvidia").
Proof.
  apply (resolution_ignores_case_and_padding Sample.rt "nvidia" "nVidia" "  " " ").
  - discriminate.
  - reflexivity.
  - apply cv_cons; [left; reflexivity|].
    apply cv_cons; [right; right; reflexivity|].
    repeat (apply cv_cons; [left; reflexivity|]). apply cv_nil.
  - intros c Hc. cbn in Hc. intuition (subst; reflexivity).
  - intros c Hc. cbn in Hc. intuition (subst; reflexivity).
Defined.

End ResolverMore.
(** ** More on [get_stock_price] *)
Module ClientMore.
Import PyStr Py Api Notions.

(** Splits the goal on every outcome a step of the call can have. *)
Ltac crack :=
  repeat match goal with
  | |- context [match ?x with _ => _ end] =>
      match type of x with
      | res _ => destruct x eqn:?
      | bool => destruct x eqn:?
      | response => destruct x eqn:?
      | option _ => destruct x eqn:?
      | transport_error => destruct x eqn:?
      end
  end.

Lemma requests_sent_same_trace (w w' : world) :
  trace w' = trace w -> requests_sent w' = requests_sent w.
Proof. unfold requests_sent. intros ->. reflexivity. Qed.

Lemma requests_sent_snoc (w w' : world) (ev : event) :
  trace w' = trace w ++ [ev] ->
  requests_sent w' = (requests_sent w + (if is_request ev then 1 else 0))%nat.
Proof.
  unfold requests_sent. intros ->. rewrite filter_app, length_app.
  destruct ev; cbn; reflexivity.
Qed.

Lemma requests_resolve (query : value) (l : list event) :
  length (filter (fun ev => is_request ev = true) (Resolve query :: l)) =
  length (filter (fun ev => is_request ev = true) l).
Proof. rewrite filter_cons. destruct (decide _) as [H|_]; [discriminate H | reflexivity]. Qed.

Lemma requests_get (url : string) (l : list event) :
  length (filter (fun ev => is_request ev = true) (HttpGet url :: l)) =
  S (length (filter (fun ev => is_request ev = true) l)).
Proof. rewrite filter_cons. destruct (decide _) as [_|H]; [reflexivity | exfalso; apply H; reflexivity]. Qed.

(** One run of the [try] block: one request is logged; the cache is
    either left alone or receives the returned line under the key. *)
Lemma price_attempt_outcome (rt : runtime) (e : env) (symbol key : string)
    (w w' : world) (r : res string) :
  price_attempt rt e symbol key w = (r, w') ->
  trace w' = trace w ++ [HttpGet (quote_url symbol (key_text e))] /\
  (ticks w <= ticks w')%nat /\
  (API_CALL_CACHE w' = API_CALL_CACHE w \/
   exists line,
     r = Ret line /\ is_price_line symbol line /\
     API_CALL_CACHE w' = <[key := (line, clock e (ticks w))]> (API_CALL_CACHE w)).
Proof.
  cbv beta iota zeta delta [price_attempt bind http_get lift ret cache_put now log].
  crack; intros [= <- <-]; cbn [trace API_CALL_CACHE ticks];
    (split; [reflexivity|]); (split; [lia|]);
    try (left; reflexivity);
    right; eexists; (split; [reflexivity|]); (split; [|reflexivity]);
    eexists _, _, _, _; reflexivity.
Qed.

Lemma price_handler_quiet (ex : pyexn) (h : M string) (w w' : world) (r : res string) :
  price_handler ex = Some h -> h w = (r, w') -> w' = w /\ exists text, r = Ret text.
Proof.
  intros Hh. destruct (GuardSpec.price_handler_returns ex h Hh) as [a ->].
  intros [= <- <-]. eauto.
Qed.

(** Every call of [get_stock_price], whatever its arguments and
    whatever the service does. *)
Lemma price_call_outcome (rt : runtime) (e : env) (query : value)
    (w w' : world) (r : res string) :
  get_stock_price rt e query w = (r, w') ->
  (exists suffix,
      trace w' = trace w ++ suffix /\
      (length (filter (fun ev => is_request ev = true) suffix) <= 1)%nat) /\
  (ticks w <= ticks w')%nat /\
  (API_CALL_CACHE w' = API_CALL_CACHE w \/
   exists line t symbol,
     r = Ret line /\ is_price_line symbol line /\
     API_CALL_CACHE w' =
       <["price_" +:+ str_lower rt (text_of query) := (line, t)]> (API_CALL_CACHE w)).
Proof.
  unfold get_stock_price.
  destruct (negb (truthy query) || negb (is_str query))%bool.
  { intros [= <- <-]. split; [exists []; rewrite app_nil_r; cbn; auto|]. auto. }
  destruct (key_unset e).
  { intros [= <- <-]. split; [exists []; rewrite app_nil_r; cbn; auto|]. auto. }
  unfold bind at 1.
  destruct (CacheSpec.cache_get_reads e ("price_" +:+ str_lower rt (text_of query)) w)
    as (o & n & Hget & Hn).
  rewrite Hget. destruct o as [cached|].
  { intros [= <- <-]. cbn [trace ticks API_CALL_CACHE].
    split; [exists []; rewrite app_nil_r; cbn; auto|]. auto. }
  unfold bind, resolve. cbv beta iota.
  destruct (_get_symbol rt query) as [symbol|].
  2:{ intros [= <- <-]. cbn [trace ticks API_CALL_CACHE log].
      split; [eexists; split; [reflexivity | rewrite requests_resolve; cbn; lia]|]. auto. }
  destruct (is_empty symbol).
  { intros [= <- <-]. cbn [trace ticks API_CALL_CACHE log].
    split; [eexists; split; [reflexivity | rewrite requests_resolve; cbn; lia]|]. auto. }
  unfold try_except.
  destruct (price_attempt rt e symbol _ _) as [r0 w0] eqn:Hatt.
  apply price_attempt_outcome in Hatt as (Htr & Htk & Hcache).
  cbn [trace ticks API_CALL_CACHE log] in Htr, Htk, Hcache.
  assert (Hshape :
    (exists suffix, trace w0 = trace w ++ suffix /\
       (length (filter (fun ev => is_request ev = true) suffix) <= 1)%nat) /\
    (ticks w <= ticks w0)%nat).
  { split; [|lia]. eexists. rewrite Htr, <- app_assoc. split; [reflexivity|]. cbn [app]. rewrite requests_resolve, requests_get. cbn. lia. }
  destruct r0 as [a|ex].
  - intros [= <- <-]. destruct Hshape as [Hs Ht]. split; [exact Hs|]. split; [exact Ht|].
    destruct Hcache as [Hc | (line & Hr & Hline & Hc)]; [left; exact Hc|].
    right. exists line, (clock e n), symbol. auto.
  - destruct Hcache as [Hc | (line & Hr & _)]; [|discriminate].
    destruct (price_handler ex) as [h|] eqn:Hh.
    + intros Hrun. destruct (price_handler_quiet ex h w0 w' r Hh Hrun) as [-> _].
      destruct Hshape as [Hs Ht]. auto.
    + intros [= <- <-]. destruct Hshape as [Hs Ht]. auto.
Qed.

(** X5: whatever the query and whatever the service does, a call either
    leaves the cache as it was or stores exactly one entry: the line it
    returns, a formatted price line, under "price_" followed by the
    query as the interpreter lower-cases it.  Messages about failures are never cached and no
    other key is written. *)
Theorem only_price_lines_are_cached
    (rt : runtime) (e : env) (query : value) (w : world) :
  API_CALL_CACHE (snd (get_stock_price rt e query w)) = API_CALL_CACHE w \/
  exists line t symbol,
    fst (get_stock_price rt e query w) = Ret line /\
    is_price_line symbol line /\
    API_CALL_CACHE (snd (get_stock_price rt e query w)) =
      <["price_" +:+ str_lower rt (text_of query) := (line, t)]> (API_CALL_CACHE w).
Proof.
  destruct (get_stock_price rt e query w) as [r w'] eqn:Hcall.
  destruct (price_call_outcome rt e query w w' r Hcall) as (_ & _ & Hcache).
  exact Hcache.
Qed.

(** X6: a call sends at most one request (there is no retry), only adds
    to the log and never turns the clock counter back. *)
Theorem at_most_one_request
    (rt : runtime) (e : env) (query : value) (w : world) :
  (requests_sent (snd (get_stock_price rt e query w)) <= requests_sent w + 1)%nat /\
  (exists suffix, trace (snd (get_stock_price rt e query w)) = trace w ++ suffix) /\
  (ticks w <= ticks (snd (get_stock_price rt e query w)))%nat.
Proof.
  destruct (get_stock_price rt e query w) as [r w'] eqn:Hcall.
  destruct (price_call_outcome rt e query w w' r Hcall)
    as ((suffix & Htr & Hone) & Htk & _).
  cbn [snd]. split; [|split; [eauto | exact Htk]].
  unfold requests_sent. rewrite Htr, filter_app, length_app. lia.
Qed.

Lemma requests_sent_resolved (rt : runtime) (e : env) (w : world) (q : string) :
  requests_sent (resolved rt e w q) = requests_sent w.
Proof.
  unfold requests_sent, resolved. cbn [trace].
  rewrite filter_app, length_app, requests_resolve. cbn. lia.
Qed.

(** X7: a fresh cache entry is returned as it is, with no resolver call
    and no request; since the key is made of the lower-cased query, the
    entry written for one query serves every query with the same
    lower-cased form. *)
Theorem cached_line_served
    (rt : runtime) (e : env) (q q' v : string) (t : Z) (w : world) :
  q' <> EmptyString ->
  key_unset e = false ->
  str_lower rt q' = str_lower rt q ->
  API_CALL_CACHE w !! ("price_" +:+ str_lower rt q) = Some (v, t) ->
  clock e (ticks w) - t < 60 * 60 * 1000000 ->
  get_stock_price rt e (VStr q') w =
    (Ret v, World (API_CALL_CACHE w) (S (ticks w)) (trace w)).
Proof.
  intros Hq Hkey Hsame Hentry Hage.
  apply (GuardSpec.fresh_entry_served rt e q' v t w);
    [exact Hq | exact Hkey | rewrite Hsame; exact Hentry | exact Hage].
Qed.

(** The line cached by a first call for "AAPL" answers a second call for
    "aapl" thirty minutes later; the log still holds one request. *)
Lemma cached_line_served_witness :
  fst (get_stock_price Sample.rt Sample.demo (VStr "aapl")
         (snd (get_stock_price Sample.rt Sample.demo (VStr "AAPL") Sample.fresh)))
    = Ret "📈 AAPL is trading at $150.25, change: 1.20 (0.80%)" /\
  requests_sent
    (snd (get_stock_price Sample.rt Sample.demo (VStr "aapl")
            (snd (get_stock_price Sample.rt Sample.demo (VStr "AAPL") Sample.fresh))))
    = 1%nat.
Proof.
  rewrite (cached_line_served Sample.rt Sample.demo "AAPL" "aapl"
             "📈 AAPL is trading at $150.25, change: 1.20 (0.80%)" 0
             (snd (get_stock_price Sample.rt Sample.demo (VStr "AAPL") Sample.fresh))).
  - split; [reflexivity | vm_compute; reflexivity].
  - discriminate.
  - reflexivity.
  - reflexivity.
  - vm_compute. reflexivity.
  - vm_compute. reflexivity.
Defined.

Section Reached.
Variable rt : runtime.
Variable e : env.
Variable w : world.
Variable q : string.

Hypothesis Hq : q <> EmptyString.
Hypothesis Hkey : key_unset e = false.
Hypothesis Hmiss : fst (cache_get e ("price_" +:+ str_lower rt q) w) = Ret None.

(** Runs the call up to the answer of the resolver. *)
Ltac reach_resolver :=
  unfold get_stock_price, arrived, resolved;
  rewrite (GuardSpec.nonempty_truthy q Hq), Hkey; cbn [text_of];
  let o := fresh "o" in
  let n := fresh "n" in
  let Hget := fresh "Hget" in
  let Hm := fresh "Hm" in
  destruct (CacheSpec.cache_get_reads e ("price_" +:+ str_lower rt q) w)
    as (o & n & Hget & _);
  pose proof Hmiss as Hm; rewrite Hget in Hm; cbn [fst] in Hm;
  injection Hm as ->;
  cbv beta delta [bind]; rewrite Hget; cbv beta iota delta [resolve snd ticks].


Variable T : string.
Hypothesis Hsym : _get_symbol rt (VStr q) = Some T.

Lemma enters_try :
  get_stock_price rt e (VStr q) w =
  try_except (price_attempt rt e T ("price_" +:+ str_lower rt q)) price_handler
             (resolved rt e w q).
Proof.
  reach_resolver. rewrite Hsym, (QuoteSpec.resolved_nonempty _ _ _ Hsym).
  reflexivity.
Qed.

Ltac reach_network H :=
  rewrite enters_try;
  cbv beta iota delta [try_except price_attempt bind http_get];
  rewrite requests_sent_resolved, H;
  cbv beta iota delta [lift py_in py_get].

Lemma log_resolved :
  log (HttpGet (quote_url T (key_text e))) (resolved rt e w q) = arrived rt e w q T.
Proof. unfold log, resolved, arrived. cbn [trace ticks API_CALL_CACHE]. rewrite <- app_assoc. reflexivity. Qed.

(** X9: a request that breaks is reported, not raised: a timeout by the
    timeout message, any other transport error by the network-error
    message with the error text, an undecodable body by the
    parsing-error message; nothing is cached. *)
Theorem broken_request_reported (why : transport_error) (text : string) :
  network e (requests_sent w) (quote_url T (key_text e)) = Broken why text ->
  get_stock_price rt e (VStr q) w =
    (Ret (failure_message why text), arrived rt e w q T).
Proof.
  intros Hnet. reach_network Hnet. rewrite log_resolved.
  destruct why; reflexivity.
Qed.

(** X10: a body that carries "Error Message" is answered by echoing that
    message, whatever else the body holds; nothing is cached. *)
Theorem remote_error_echoed (data : list (string * value)) (m : value) :
  network e (requests_sent w) (quote_url T (key_text e)) = Payload (VDict data) ->
  assoc "Error Message" data = Some m ->
  get_stock_price rt e (VStr q) w =
    (Ret ("⚠️ API Error: " +:+ py_str rt m), arrived rt e w q T).
Proof.
  intros Hnet Herr. reach_network Hnet. rewrite log_resolved, Herr.
  cbv beta iota delta [py_getitem]. rewrite Herr. reflexivity.
Qed.

(** X11: a price that is text but not a number is reported with the
    parsing-error message carrying the interpreter's wording; nothing is
    cached. *)
Theorem unreadable_price_reported
    (data items : list (string * value)) (s : string) :
  network e (requests_sent w) (quote_url T (key_text e)) = Payload (VDict data) ->
  assoc "Error Message" data = None ->
  assoc "Global Quote" data = Some (VDict items) ->
  assoc "05. price" items = Some (VStr s) ->
  float_of_text rt s = None ->
  get_stock_price rt e (VStr q) w =
    (Ret ("❌ Error parsing data: " +:+ fault_text rt (BadFloatText s)),
     arrived rt e w q T).
Proof.
  intros Hnet Hok Hquote Hprice Hbad. reach_network Hnet.
  rewrite log_resolved, Hok, Hquote. cbn [from_option id].
  assert (Htruthy : truthy (VDict items) = true).
  { destruct items; [discriminate | reflexivity]. }
  rewrite Htruthy, Hprice.
  cbv beta iota delta [negb ret py_getitem]. rewrite Hprice.
  cbv beta iota delta [py_float]. rewrite Hbad. reflexivity.
Qed.

End Reached.


Lemma broken_request_reported_witness :
  fst (get_stock_price Sample.rt (Sample.breaking TimedOut "read timed out")
         (VStr "Apple") Sample.fresh)
    = Ret "⏱️ Request timeout - Alpha Vantage server is slow, please try again." /\
  fst (get_stock_price Sample.rt (Sample.breaking Failed "connection refused")
         (VStr "Apple") Sample.fresh)
    = Ret "❌ Network error: connection refused".
Proof.
  split.
  - rewrite (broken_request_reported Sample.rt
               (Sample.breaking TimedOut "read timed out") Sample.fresh "Apple"
               ltac:(discriminate) ltac:(reflexivity) ltac:(reflexivity)
               "AAPL" ltac:(vm_compute; reflexivity)
               TimedOut "read timed out" ltac:(reflexivity)).
    reflexivity.
  - rewrite (broken_request_reported Sample.rt
               (Sample.breaking Failed "connection refused") Sample.fresh "Apple"
               ltac:(discriminate) ltac:(reflexivity) ltac:(reflexivity)
               "AAPL" ltac:(vm_compute; reflexivity)
               Failed "connection refused" ltac:(reflexivity)).
    reflexivity.
Defined.

Lemma remote_error_echoed_witness :
  fst (get_stock_price Sample.rt (Sample.env_with (Some "demo") Sample.error_body)
         (VStr "Apple") Sample.fresh)
    = Ret "⚠️ API Error: Invalid API call.".
Proof.
  rewrite (remote_error_echoed Sample.rt
             (Sample.env_with (Some "demo") Sample.error_body) Sample.fresh "Apple"
             ltac:(discriminate) ltac:(reflexivity) ltac:(reflexivity)
             "AAPL" ltac:(vm_compute; reflexivity)
             [("Error Message", VStr "Invalid API call.")]
             (VStr "Invalid API call.")
             ltac:(reflexivity) ltac:(reflexivity)).
  reflexivity.
Defined.

Lemma unreadable_price_reported_witness :
  fst (get_stock_price Sample.rt (Sample.env_with (Some "demo") Sample.garbled_quote)
         (VStr "Apple") Sample.fresh)
    = Ret "❌ Error parsing data: could not convert string to float: 'n/a'".
Proof.
  rewrite (unreadable_price_reported Sample.rt
             (Sample.env_with (Some "demo") Sample.garbled_quote) Sample.fresh
             "Apple"
             ltac:(discriminate) ltac:(reflexivity) ltac:(reflexivity)
             "AAPL" ltac:(vm_compute; reflexivity)
             [("Global Quote", VDict [("05. price", VStr "n/a")])]
             [("05. price", VStr "n/a")] "n/a"
             ltac:(reflexivity) ltac:(reflexivity) ltac:(reflexivity)
             ltac:(reflexivity) ltac:(vm_compute; reflexivity)).
  vm_compute. reflexivity.
Defined.

(** X12: when [get_stock_price] raises, the exception is none of the
    four classes its [except] clauses name; the cache is exactly as it
    was before the call, and the request has been sent. *)
Theorem raising_call_leaves_cache
    (rt : runtime) (e : env) (query : value) (w : world) (ex : pyexn) :
  fst (get_stock_price rt e query w) = Raise ex ->
  (exn_cls ex <> Timeout /\ exn_cls ex <> RequestException /\
   exn_cls ex <> KeyError /\ exn_cls ex <> ValueError) /\
  API_CALL_CACHE (snd (get_stock_price rt e query w)) = API_CALL_CACHE w /\
  requests_sent (snd (get_stock_price rt e query w)) = (requests_sent w + 1)%nat.
Proof.
  destruct (get_stock_price rt e query w) as [r w'] eqn:Hcall.
  cbn [fst snd]. intros ->.
  split; [exact (GuardSpec.price_escape_class rt e query w w' ex Hcall)|].
  revert Hcall. unfold get_stock_price.
  destruct (negb (truthy query) || negb (is_str query))%bool; [discriminate|].
  destruct (key_unset e); [discriminate|].
  unfold bind at 1.
  destruct (CacheSpec.cache_get_reads e ("price_" +:+ str_lower rt (text_of query)) w)
    as (o & n & Hget & _).
  rewrite Hget. destruct o; [discriminate|].
  unfold bind, resolve. cbv beta iota.
  destruct (_get_symbol rt query) as [symbol|]; [|discriminate].
  destruct (is_empty symbol); [discriminate|].
  intros Hesc.
  apply GuardSpec.try_except_escape in Hesc as [Hbody _];
    [|exact GuardSpec.price_handler_returns].
  apply price_attempt_outcome in Hbody as (Htr & _ & Hcache).
  cbn [trace API_CALL_CACHE log] in Htr, Hcache.
  split.
  - destruct Hcache as [Hc | (line & Hr & _)]; [exact Hc | discriminate Hr].
  - unfold requests_sent. rewrite Htr, !filter_app, !length_app.
    rewrite requests_resolve, requests_get. cbn. lia.
Qed.

(** A body nested too deep: the decoder's exception leaves the call. *)
Lemma raising_call_leaves_cache_witness :
  fst (get_stock_price Sample.rt (Sample.crashing "maximum recursion depth exceeded")
         (VStr "AAPL") Sample.fresh)
    = Raise (Exn RecursionError "maximum recursion depth exceeded") /\
  API_CALL_CACHE
    (snd (get_stock_price Sample.rt (Sample.crashing "maximum recursion depth exceeded")
            (VStr "AAPL") Sample.fresh)) = ∅.
Proof.
  assert (Hraise :
    fst (get_stock_price Sample.rt (Sample.crashing "maximum recursion depth exceeded")
           (VStr "AAPL") Sample.fresh)
      = Raise (Exn RecursionError "maximum recursion depth exceeded")).
  { vm_compute. reflexivity. }
  split; [exact Hraise|].
  destruct (raising_call_leaves_cache Sample.rt
              (Sample.crashing "maximum recursion depth exceeded")
              (VStr "AAPL") Sample.fresh _ Hraise) as (_ & Hcache & _).
  rewrite Hcache. reflexivity.
Defined.

End ClientMore.
(** ** [get_intraday_data] *)
Module IntradaySpec.
Import PyStr Py Api Notions.

(** One run of the [try] block of [get_intraday_data]: one request is
    logged; the cache and the clock are not touched. *)
Lemma intraday_attempt_outcome (rt : runtime) (e : env) (symbol interval : string)
    (w w' : world) (r : res string) :
  intraday_attempt rt e symbol interval w = (r, w') ->
  w' = log (HttpGet (intraday_url symbol interval (key_text e))) w.
Proof.
  cbv beta iota zeta delta [intraday_attempt bind http_get lift ret].
  ClientMore.crack; intros [= <- <-]; reflexivity.
Qed.

(** X13: [get_intraday_data] returns a text for every pair of arguments
    and every behaviour of the service; it never writes the cache, never
    reads the clock and sends at most one request. *)
Theorem intraday_returns_and_never_caches
    (rt : runtime) (e : env) (query interval : value) (w : world) :
  (exists text, fst (get_intraday_data rt e query interval w) = Ret text) /\
  API_CALL_CACHE (snd (get_intraday_data rt e query interval w)) = API_CALL_CACHE w /\
  ticks (snd (get_intraday_data rt e query interval w)) = ticks w /\
  (requests_sent (snd (get_intraday_data rt e query interval w))
   <= requests_sent w + 1)%nat.
Proof.
  unfold get_intraday_data.
  destruct (negb (truthy query) || negb (is_str query))%bool;
    [cbn; repeat split; eauto; lia|].
  destruct (negb (known_interval interval)); [cbn; repeat split; eauto; lia|].
  destruct (key_unset e); [cbn; repeat split; eauto; lia|].
  unfold bind, resolve. cbv beta iota.
  assert (Hlog : forall ev, requests_sent (log (Resolve ev) w) = requests_sent w).
  { intros ev. apply QuoteSpec.requests_sent_log_resolve. }
  destruct (_get_symbol rt query) as [symbol|];
    [|cbn [fst snd ret log API_CALL_CACHE ticks]; rewrite Hlog;
      repeat split; eauto; lia].
  destruct (is_empty symbol);
    [cbn [fst snd ret log API_CALL_CACHE ticks]; rewrite Hlog;
     repeat split; eauto; lia|].
  unfold try_except.
  destruct (intraday_attempt rt e symbol (text_of interval) _) as [r0 w0] eqn:Hatt.
  apply intraday_attempt_outcome in Hatt. subst w0.
  assert (Hsent :
    (requests_sent
       (log (HttpGet (intraday_url symbol (text_of interval) (key_text e)))
            (log (Resolve query) w)) <= requests_sent w + 1)%nat).
  { rewrite (ClientMore.requests_sent_snoc (log (Resolve query) w) _
               (HttpGet (intraday_url symbol (text_of interval) (key_text e))))
      by reflexivity.
    rewrite Hlog. cbn. lia. }
  destruct r0 as [a|ex]; cbn [intraday_handler ret fst snd log API_CALL_CACHE ticks];
    repeat split; eauto.
Qed.

Section Reached.
Variable rt : runtime.
Variable e : env.
Variable w : world.
Variables q i T : string.

Hypothesis Hq : q <> EmptyString.
Hypothesis Hi : In i INTERVALS.
Hypothesis Hkey : key_unset e = false.
Hypothesis Hsym : _get_symbol rt (VStr q) = Some T.

Lemma known (v : string) : In v INTERVALS -> known_interval (VStr v) = true.
Proof.
  intros Hin. unfold known_interval. apply existsb_exists.
  exists v. split; [exact Hin | apply String.eqb_refl].
Qed.

Lemma enters_intraday_try :
  get_intraday_data rt e (VStr q) (VStr i) w =
  try_except (intraday_attempt rt e T i) intraday_handler
             (log (Resolve (VStr q)) w).
Proof.
  unfold get_intraday_data.
  rewrite (GuardSpec.nonempty_truthy q Hq), (known i Hi), Hkey.
  cbv beta iota delta [bind resolve negb]. rewrite Hsym.
  rewrite (QuoteSpec.resolved_nonempty _ _ _ Hsym). reflexivity.
Qed.

Ltac reach_network H :=
  rewrite enters_intraday_try;
  cbv beta iota delta [try_except intraday_attempt bind http_get];
  rewrite QuoteSpec.requests_sent_log_resolve, H;
  cbv beta iota delta [lift py_in py_get].

(** X14: every broken request, a timeout included, is answered with the
    same error message followed by the error text. *)
Theorem intraday_failure_reported (why : transport_error) (text : string) :
  network e (requests_sent w) (intraday_url T i (key_text e)) = Broken why text ->
  fst (get_intraday_data rt e (VStr q) (VStr i) w) =
    Ret ("❌ Error fetching intraday data: " +:+ text).
Proof.
  intros Hnet. reach_network Hnet. destruct why; reflexivity.
Qed.

(** X15: from a well-formed answer the call reports the record stored
    under the first key of the time series, in the order of the body,
    whatever the time stamps say about the other records. *)
Theorem intraday_reports_first_record
    (data record : list (string * value)) (stamp : string)
    (rest : list (string * value)) (o h l c v : value) :
  network e (requests_sent w) (intraday_url T i (key_text e)) = Payload (VDict data) ->
  assoc "Error Message" data = None ->
  assoc ("Time Series (" +:+ i +:+ ")") data
    = Some (VDict ((stamp, VDict record) :: rest)) ->
  assoc "1. open" record = Some o ->
  assoc "2. high" record = Some h ->
  assoc "3. low" record = Some l ->
  assoc "4. close" record = Some c ->
  assoc "5. volume" record = Some v ->
  fst (get_intraday_data rt e (VStr q) (VStr i) w) =
    Ret ("📊 " +:+ T +:+ " Intraday (" +:+ i +:+ ") - " +:+ stamp +:+ ":" +:+
         String "010" "" +:+
         "Open: $" +:+ py_str rt o +:+ ", " +:+
         "High: $" +:+ py_str rt h +:+ ", " +:+
         "Low: $" +:+ py_str rt l +:+ ", " +:+
         "Close: $" +:+ py_str rt c +:+ ", " +:+
         "Volume: " +:+ py_str rt v).
Proof.
  intros Hnet Hok Hseries Ho Hh Hl Hc Hv. reach_network Hnet.
  rewrite Hok. cbv beta iota zeta delta [lift py_in]. rewrite Hseries.
  cbv beta iota delta [negb py_getitem py_first_key]. rewrite Hseries.
  cbv beta iota delta [assoc]. rewrite String.eqb_refl.
  cbv beta iota. fold assoc. rewrite Ho, Hh, Hl, Hc, Hv. reflexivity.
Qed.

(** X16: an answer whose time series is empty is reported with the error
    message carrying the interpreter's wording for the failed index; an
    answer without the series of the asked interval is reported as not
    retrievable for the ticker. *)
Theorem intraday_empty_or_missing_series (data : list (string * value)) :
  network e (requests_sent w) (intraday_url T i (key_text e)) = Payload (VDict data) ->
  assoc "Error Message" data = None ->
  (assoc ("Time Series (" +:+ i +:+ ")") data = Some (VDict []) ->
   fst (get_intraday_data rt e (VStr q) (VStr i) w) =
     Ret ("❌ Error fetching intraday data: " +:+ fault_text rt EmptyIndex)) /\
  (assoc ("Time Series (" +:+ i +:+ ")") data = None ->
   fst (get_intraday_data rt e (VStr q) (VStr i) w) =
     Ret ("⚠️ Could not retrieve intraday data for " +:+ T +:+ ".")).
Proof.
  intros Hnet Hok. split; intros Hseries; reach_network Hnet;
    rewrite Hok; cbv beta iota zeta delta [lift py_in]; rewrite Hseries;
    [|reflexivity].
  cbv beta iota delta [negb py_getitem py_first_key]. rewrite Hseries.
  reflexivity.
Qed.

End Reached.

Lemma intraday_failure_reported_witness :
  fst (get_intraday_data Sample.rt (Sample.breaking TimedOut "read timed out")
         (VStr "Apple") (VStr "5min") Sample.fresh)
    = Ret "❌ Error fetching intraday data: read timed out".
Proof.
  rewrite (intraday_failure_reported Sample.rt
             (Sample.breaking TimedOut "read timed out") Sample.fresh
             "Apple" "5min" "AAPL"
             ltac:(discriminate) ltac:(right; left; reflexivity)
             ltac:(reflexivity) ltac:(vm_compute; reflexivity)
             TimedOut "read timed out" ltac:(reflexivity)).
  reflexivity.
Defined.

Lemma intraday_reports_first_record_witness :
  fst (get_intraday_data Sample.rt (Sample.env_with (Some "demo") Sample.two_records)
         (VStr "Apple") (VStr "5min") Sample.fresh)
    = Ret ("📊 AAPL Intraday (5min) - 2024-01-02 16:00:00:" +:+ String "010" "" +:+
           "Open: $10.0, High: $12.0, Low: $9.5, Close: $11.0, Volume: 1200").
Proof.
  rewrite (intraday_reports_first_record Sample.rt
             (Sample.env_with (Some "demo") Sample.two_records) Sample.fresh
             "Apple" "5min" "AAPL"
             ltac:(discriminate) ltac:(right; left; reflexivity)
             ltac:(reflexivity) ltac:(vm_compute; reflexivity)
             _ _ "2024-01-02 16:00:00" _ (VStr "10.0") (VStr "12.0") (VStr "9.5")
             (VStr "11.0") (VStr "1200")
             ltac:(reflexivity) ltac:(reflexivity) ltac:(reflexivity)
             ltac:(reflexivity) ltac:(reflexivity) ltac:(reflexivity)
             ltac:(reflexivity) ltac:(reflexivity)).
  vm_compute. reflexivity.
Defined.

Lemma intraday_empty_or_missing_series_witness :
  fst (get_intraday_data Sample.rt (Sample.env_with (Some "demo") Sample.empty_series)
         (VStr "Apple") (VStr "5min") Sample.fresh)
    = Ret "❌ Error fetching intraday data: list index out of range" /\
  fst (get_intraday_data Sample.rt (Sample.env_with (Some "demo") Sample.empty_series)
         (VStr "Apple") (VStr "1min") Sample.fresh)
    = Ret "⚠️ Could not retrieve intraday data for AAPL.".
Proof.
  split.
  - destruct (intraday_empty_or_missing_series Sample.rt
                (Sample.env_with (Some "demo") Sample.empty_series) Sample.fresh
                "Apple" "5min" "AAPL"
                ltac:(discriminate) ltac:(right; left; reflexivity)
                ltac:(reflexivity) ltac:(vm_compute; reflexivity)
                [("Time Series (5min)", VDict [])]
                ltac:(reflexivity) ltac:(reflexivity)) as [Hempty _].
    rewrite Hempty by reflexivity. reflexivity.
  - destruct (intraday_empty_or_missing_series Sample.rt
                (Sample.env_with (Some "demo") Sample.empty_series) Sample.fresh
                "Apple" "1min" "AAPL"
                ltac:(discriminate) ltac:(left; reflexivity)
                ltac:(reflexivity) ltac:(vm_compute; reflexivity)
                [("Time Series (5min)", VDict [])]
                ltac:(reflexivity) ltac:(reflexivity)) as [_ Hmissing].
    rewrite Hmissing by reflexivity. reflexivity.
Defined.

End IntradaySpec.

(** ** [get_company_info] and [clear_cache] *)
Module InfoSpec.
Import PyStr Py Api Notions.

Lemma variant_resolves_alike (q q' : string) :
  case_variant q' q ->
  _get_symbol Sample.rt (VStr q') = _get_symbol Sample.rt (VStr q).
Proof.
  intros Hcase. rewrite !ResolverSpec.get_symbol_text.
  rewrite (PyStrFacts.case_variant_empty q' q Hcase).
  rewrite (ResolverSpec.lookup_symbol_lower q' q
             (PyStrFacts.case_variant_lower q' q Hcase)).
  reflexivity.
Qed.

Lemma described_rows_ok : forallb described_ok company_info = true.
Proof. vm_compute. reflexivity. Qed.

Lemma described_at (t d : string) :
  In (t, d) company_info ->
  _get_symbol Sample.rt (VStr t) = Some t /\
  lookup_text t company_info = Some d /\ is_ascii t = true.
Proof.
  intros Hin. pose proof described_rows_ok as Hall.
  rewrite forallb_forall in Hall. specialize (Hall _ Hin).
  unfold described_ok in Hall. apply andb_prop in Hall as [Hall Hascii].
  apply andb_prop in Hall as [Hs Hd].
  apply bool_decide_eq_true_1 in Hs. apply bool_decide_eq_true_1 in Hd. auto.
Qed.

Lemma info_when_resolved (rt : runtime) (query : value) (T : string) (w : world) :
  _get_symbol rt query = Some T ->
  get_company_info rt query w = (Ret (info_line T), log (Resolve query) w).
Proof.
  intros Hsym. unfold get_company_info.
  assert (Hguard : (negb (truthy query) || negb (is_str query))%bool = false).
  { unfold _get_symbol in Hsym.
    destruct (negb (truthy query) || negb (is_str query))%bool;
      [discriminate | reflexivity]. }
  rewrite Hguard. cbv beta iota delta [bind resolve]. rewrite Hsym.
  rewrite (QuoteSpec.resolved_nonempty _ _ _ Hsym). reflexivity.
Qed.

(** X17: each of the eight described companies is reached by its ticker
    written in any letter case: the answer is the information mark, the
    ticker and the description of that company. *)
Theorem described_company_reached
    (rt : runtime) (t d q : string) (w : world) :
  In (t, d) company_info ->
  case_variant q t ->
  fst (get_company_info rt (VStr q) w) = Ret ("ℹ️ " +:+ t +:+ ": " +:+ d).
Proof.
  intros Hin Hcase. destruct (described_at t d Hin) as (Hsym & Hd & Hascii).
  rewrite <- (variant_resolves_alike t q Hcase) in Hsym.
  rewrite <- (ResolverSpec.get_symbol_ascii rt q) in Hsym
    by (rewrite (PyStrFacts.case_variant_ascii q t Hcase); exact Hascii).
  rewrite (info_when_resolved rt (VStr q) t w Hsym).
  unfold info_line. rewrite Hd. reflexivity.
Qed.

Lemma described_company_reached_witness :
  fst (get_company_info Sample.rt (VStr "nvda") Sample.fresh)
    = Ret "ℹ️ NVDA: NVIDIA Corporation - Semiconductors, Founded 1993".
Proof.
  rewrite (described_company_reached Sample.rt "NVDA"
             "NVIDIA Corporation - Semiconductors, Founded 1993" "nvda").
  - reflexivity.
  - unfold company_info. do 5 right. left. reflexivity.
  - repeat (apply cv_cons; [right; left; reflexivity|]). apply cv_nil.
Defined.

(** X18: asking for an alias of the symbol table always gives a line
    about its ticker: with the description when the ticker has one, and
    with "Stock ticker: " followed by the ticker otherwise; only the
    resolver call is logged. *)
Theorem alias_company_line (rt : runtime) (a T : string) (w : world) :
  In (a, T) COMPANY_SYMBOLS ->
  get_company_info rt (VStr a) w =
    (Ret ("ℹ️ " +:+ T +:+ ": " +:+
          match lookup_text T company_info with
          | Some d => d
          | None => "Stock ticker: " +:+ T
          end),
     log (Resolve (VStr a)) w).
Proof.
  intros Hin. destruct (ResolverSpec.row_ok_at a T Hin) as (Hsym & _ & _ & Hascii & _).
  rewrite <- (ResolverSpec.get_symbol_ascii rt a Hascii) in Hsym.
  rewrite (info_when_resolved rt (VStr a) T w Hsym).
  unfold info_line. destruct (lookup_text T company_info); reflexivity.
Qed.

Lemma alias_company_line_witness :
  fst (get_company_info Sample.rt (VStr "jpmorgan") Sample.fresh)
    = Ret "ℹ️ JPM: Stock ticker: JPM" /\
  fst (get_company_info Sample.rt (VStr "facebook") Sample.fresh)
    = Ret "ℹ️ META: Meta Platforms - Social Media/Tech, Founded 2004".
Proof.
  split.
  - rewrite (alias_company_line Sample.rt "jpmorgan" "JPM");
      [reflexivity | unfold COMPANY_SYMBOLS; do 12 right; left; reflexivity].
  - rewrite (alias_company_line Sample.rt "facebook" "META");
      [reflexivity | unfold COMPANY_SYMBOLS; do 6 right; left; reflexivity].
Defined.

Lemma try_price_world (rt : runtime) (e : env) (symbol key : string) (w : world) :
  snd (try_except (price_attempt rt e symbol key) price_handler w) =
  snd (price_attempt rt e symbol key w).
Proof.
  unfold try_except.
  destruct (price_attempt rt e symbol key w) as [[a|ex] w0]; [reflexivity|].
  destruct (price_handler ex) as [h|] eqn:Hh; [|reflexivity].
  destruct (GuardSpec.price_handler_returns ex h Hh) as [text ->]. reflexivity.
Qed.

(** X19: after [clear_cache()] nothing is served from the cache: a call
    for a query that resolves sends a request, whatever had been cached
    before and however recently. *)
Theorem cleared_cache_refetches
    (rt : runtime) (e : env) (q T : string) (w : world) :
  q <> EmptyString ->
  key_unset e = false ->
  _get_symbol rt (VStr q) = Some T ->
  requests_sent (snd (get_stock_price rt e (VStr q) (snd (clear_cache w)))) =
    (requests_sent w + 1)%nat.
Proof.
  intros Hq Hkey Hsym.
  rewrite (ClientMore.enters_try rt e (snd (clear_cache w)) q Hq Hkey
             (CacheSpec.clear_cache_misses e _ w) T Hsym).
  rewrite try_price_world.
  destruct (price_attempt rt e T _ _) as [r w0] eqn:Hatt.
  apply ClientMore.price_attempt_outcome in Hatt as (Htr & _ & _).
  cbn [snd].
  rewrite (ClientMore.requests_sent_snoc _ _ _ Htr).
  rewrite ClientMore.requests_sent_resolved.
  unfold requests_sent, clear_cache. reflexivity.
Qed.

Lemma cleared_cache_refetches_witness :
  requests_sent
    (snd (get_stock_price Sample.rt Sample.demo (VStr "AAPL")
            (snd (clear_cache
                    (snd (get_stock_price Sample.rt Sample.demo (VStr "AAPL")
                            Sample.fresh)))))) = 2%nat.
Proof.
  rewrite (cleared_cache_refetches Sample.rt Sample.demo "AAPL" "AAPL").
  - vm_compute. reflexivity.
  - discriminate.
  - reflexivity.
  - vm_compute. reflexivity.
Defined.

End InfoSpec.

(** ** More on the conversation memory *)
Module MemoryMore.
Import PyStr Py Memory Notions.

Lemma append_assoc (a b c : string) : (a +:+ b) +:+ c = a +:+ (b +:+ c).
Proof.
  induction a as [|x a IH]; [reflexivity|].
  rewrite !PyStrFacts.app_cons, IH. reflexivity.
Qed.

Lemma last_n_snoc_ends {A : Type} (n : nat) (l : list A) (x : A) :
  (1 <= n)%nat -> exists l', last_n n (l ++ [x]) = l' ++ [x].
Proof.
  intros Hn. unfold last_n. rewrite length_app. cbn [length].
  exists (skipn (length l + 1 - n) l).
  rewrite skipn_app.
  replace (length l + 1 - n - length l)%nat with 0%nat by lia. reflexivity.
Qed.

Lemma join_snoc (sep : string) (l : list string) (y : string) :
  exists pre, join sep (l ++ [y]) = pre +:+ y.
Proof.
  induction l as [|x l [pre IH]].
  - exists EmptyString. reflexivity.
  - destruct l as [|x' l].
    + exists (x +:+ sep). cbn. rewrite append_assoc. reflexivity.
    + exists (x +:+ sep +:+ pre).
      change (join sep ((x :: x' :: l) ++ [y]))
        with (x +:+ sep +:+ join sep ((x' :: l) ++ [y])).
      rewrite IH, !append_assoc. reflexivity.
Qed.

Lemma render_bounded (mem : list (string * string)) :
  mem <> [] -> (length mem <= MAX_MEMORY)%nat ->
  get_recent_memory mem =
    join NEWLINE
      (map (fun '(u0, b0) => "User: " +:+ u0 +:+ NEWLINE +:+ "Bot: " +:+ b0) mem).
Proof.
  intros Hne Hlen. unfold get_recent_memory.
  rewrite (MemorySpec.last_n_short _ _ Hlen).
  destruct mem; [congruence | reflexivity].
Qed.

(** X20: a valid append makes the buffer one pair longer until it holds
    ten pairs, and keeps it at ten from then on. *)
Theorem append_length_law
    (rt : runtime) (u b : string) (mem : list (string * string)) :
  u <> EmptyString -> b <> EmptyString ->
  length (snd (add_to_memory rt (VStr u) (VStr b) mem)) =
    Nat.min (length mem + 1) 10.
Proof.
  intros Hu Hb. rewrite (MemorySpec.add_text rt u b mem Hu Hb). cbn [snd].
  unfold last_n, MAX_MEMORY. rewrite length_skipn, length_app. cbn [length]. lia.
Qed.

Lemma append_length_law_witness :
  length (snd (add_to_memory Sample.rt (VStr "hi") (VStr "hello") Sample.thirteen))
    = 10%nat /\
  length (snd (add_to_memory Sample.rt (VStr "hi") (VStr "hello") [("a", "b")]))
    = 2%nat.
Proof.
  split.
  - rewrite (append_length_law Sample.rt "hi" "hello" Sample.thirteen);
      [reflexivity | discriminate | discriminate].
  - rewrite (append_length_law Sample.rt "hi" "hello" [("a", "b")]);
      [reflexivity | discriminate | discriminate].
Defined.

(** X21: on a buffer that holds ten pairs, a valid append drops the
    oldest pair, keeps the other nine in their order and puts the new
    pair at the end, each text as the interpreter's [strip] returns
    it. *)
Theorem full_buffer_drops_oldest
    (rt : runtime) (u b : string) (oldest : string * string)
    (others : list (string * string)) :
  u <> EmptyString -> b <> EmptyString ->
  length others = 9%nat ->
  add_to_memory rt (VStr u) (VStr b) (oldest :: others) =
    (Ret tt, others ++ [(str_strip rt u, str_strip rt b)]).
Proof.
  intros Hu Hb Hlen. rewrite (MemorySpec.add_text rt u b _ Hu Hb).
  unfold last_n, MAX_MEMORY, stored. cbn [fst snd].
  rewrite length_app. cbn [length]. rewrite Hlen. reflexivity.
Qed.

Lemma full_buffer_drops_oldest_witness :
  snd (add_to_memory Sample.rt (VStr " next ") (VStr "ok")
         [("u1", "b1"); ("u2", "b2"); ("u3", "b3"); ("u4", "b4"); ("u5", "b5");
          ("u6", "b6"); ("u7", "b7"); ("u8", "b8"); ("u9", "b9"); ("u10", "b10")])
  = [("u2", "b2"); ("u3", "b3"); ("u4", "b4"); ("u5", "b5"); ("u6", "b6");
     ("u7", "b7"); ("u8", "b8"); ("u9", "b9"); ("u10", "b10"); ("next", "ok")].
Proof.
  rewrite (full_buffer_drops_oldest Sample.rt " next " "ok" ("u1", "b1"));
    [reflexivity | discriminate | discriminate | reflexivity].
Defined.

(** X22: after a valid append, the text of [get_recent_memory] ends with
    the "User: " and "Bot: " lines of the exchange just added, each text
    as the interpreter's [strip] returns it. *)
Theorem latest_exchange_rendered_last
    (rt : runtime) (u b : string) (mem : list (string * string)) :
  u <> EmptyString -> b <> EmptyString ->
  exists before,
    get_recent_memory (snd (add_to_memory rt (VStr u) (VStr b) mem)) =
      before +:+ "User: " +:+ str_strip rt u +:+ NEWLINE +:+
      "Bot: " +:+ str_strip rt b.
Proof.
  intros Hu Hb. rewrite (MemorySpec.add_text rt u b mem Hu Hb). cbn [snd].
  destruct (last_n_snoc_ends MAX_MEMORY mem (stored rt (u, b))) as [l' Hl'];
    [unfold MAX_MEMORY; lia|].
  assert (Hshort : (length (l' ++ [stored rt (u, b)]) <= MAX_MEMORY)%nat).
  { rewrite <- Hl'. apply MemorySpec.last_n_length. }
  rewrite Hl'. rewrite render_bounded; [|destruct l'; discriminate|exact Hshort].
  rewrite map_app. cbn [map].
  destruct (join_snoc NEWLINE
              (map (fun '(u0, b0) => "User: " +:+ u0 +:+ NEWLINE +:+ "Bot: " +:+ b0) l')
              ((fun '(u0, b0) => "User: " +:+ u0 +:+ NEWLINE +:+ "Bot: " +:+ b0)
                 (stored rt (u, b)))) as [pre Hpre].
  exists pre. rewrite Hpre. reflexivity.
Qed.

Lemma latest_exchange_rendered_last_witness :
  exists before,
    get_recent_memory
      (snd (add_to_memory Sample.rt (VStr "price of AAPL? ") (VStr "150.25")
              [("hi", "hello")])) =
      before +:+ "User: " +:+ "price of AAPL?" +:+ NEWLINE +:+ "Bot: " +:+ "150.25".
Proof.
  apply (latest_exchange_rendered_last Sample.rt "price of AAPL? " "150.25"
           [("hi", "hello")]);
    discriminate.
Defined.

End MemoryMore.
